(** * SENTINEL-BOT: the curve-progress resolver and the early-signal coordinator

    A shallow embedding of [pump_bonding_monitor.py] (class
    [PumpBondingMonitor]) and [early_signals_monitor.py] (class
    [EarlySignalsMonitor]), and the properties of the resolver, the scorer
    and the coordinator that follow from the code.

    Conventions of the embedding.
    - A Python [float] is an IEEE 754 binary64 number: Rocq's primitive
      [float], with its own [nan], infinities and signed zeros.  A Python
      [int] is a [Z]; where the source mixes an [int] into float arithmetic
      ([/ GRADUATION_MCAP], [* 100], [< 60], the [100] that [min] may
      return, the [0] stored as [volume_24h]) it is the float of the same
      value, which compares and computes as the [int] does.
    - A [dict] with a fixed set of keys is a record whose fields carry the
      keys' names; a key read with [.get(key, default)] is an [option] field.
      A [dict] keyed by token mints is a [gmap string _], a [set] of mints a
      [gset string].
    - [async def] bodies run to completion between two suspension points
      of the single event loop; an awaited call is a function of the state
      and of what the outside world answers, which is an argument ([env]).
    - An exception is a value: a body that may raise returns a [result],
      and [try: ... except Exception] is [try_except].  Cancellation of a
      task is not an [Exception] and is not modelled. *)

From Stdlib Require Import ZArith Lia Floats.
From stdpp Require Import gmap strings.

(** ** Python primitives *)

Module Py.

(** The class of a raised exception; every class used below derives from
    [Exception]. *)
Inductive exception := Exception (cls : string).

Inductive result (A : Type) :=
| Return (a : A)
| Raise (e : exception).
Arguments Return {A} a.
Arguments Raise {A} e.

#[export] Instance result_ret : MRet result := @Return.
#[export] Instance result_bind : MBind result := fun A B f r =>
  match r with
  | Return a => f a
  | Raise e => Raise e
  end.

(** [try: body except Exception as e: handler e] *)
Definition try_except {A} (body : result A) (handler : exception -> result A)
  : result A :=
  match body with
  | Return a => Return a
  | Raise e => handler e
  end.

(** The builtin [min(a, b)]: it keeps its first argument unless the
    second is strictly smaller, so [min(nan, b)] is [nan]. *)
Definition min (a b : float) : float :=
  if (b <? a)%float then b else a.

(** [conv(d.get(key, default))] for a conversion [conv] ([float], [int])
    of an untrusted JSON field.  The field is [None] when the key is
    absent, and otherwise holds what the conversion of its value does:
    the converted number or the exception ([TypeError], [ValueError],
    [OverflowError]). *)
Definition get_conv {A} (field : option (result A)) (default : A) : result A :=
  match field with
  | Some r => r
  | None => Return default
  end.

(** [len(d.get(key, []))] *)
Definition len_get {A} (field : option (list A)) : Z :=
  Z.of_nat (length (default [] field)).

End Py.
Import Py.

(** ** pump_bonding_monitor.py *)

Module PumpBondingMonitor.

(** Graduates at ~$69k market cap *)
Definition GRADUATION_MCAP : float := 69000.

(** An entry of [live_tokens], as [_process_websocket_message] writes it. *)
Record live_data := {
  ld_mint : string;
  ld_symbol : string;
  ld_name : string;
  ld_market_cap_usd : float;
  ld_sol_amount : float;
  ld_last_trade_timestamp : option Z;
  ld_last_updated : float
}.

(** The two fields read from the JSON object of the Pump.fun API. *)
Record coin := {
  usd_market_cap : option (result float);
  reply_count : option (result Z)
}.

(** The dict [get_curve_progress] returns and the scorer reads.  The
    resolver always sets [holder_count] and [volume_24h]; the scorer reads
    both with [.get(key, 0)]. *)
Record curve_data := {
  completion_percent : float;
  market_cap_usd : float;
  sol_raised : float;
  holder_count : option Z;
  volume_24h : option float;
  source : string;
  token_data : option coin
}.

(** An entry of [token_cache]. *)
Record cache_entry := {
  data : curve_data;
  timestamp : float
}.

(** A row of [get_cached_tokens_by_curve_range]. *)
Record range_row := {
  r_completion_percent : float;
  r_market_cap_usd : float;
  r_symbol : string;
  r_source : string
}.

(** The instance attributes ([ws] is only the handle of the feed). *)
Record PumpBondingMonitor := {
  session : option unit;
  running : bool;
  token_cache : gmap string cache_entry;
  cache_ttl : float;
  live_tokens : gmap string live_data
}.

Definition __init__ : PumpBondingMonitor :=
  {| session := None;
     running := false;
     token_cache := ∅;
     cache_ttl := 30;
     live_tokens := ∅ |}.

(** [start] opens the session and launches the feed listener, whose
    messages arrive through [_process_websocket_message]. *)
Definition start (self : PumpBondingMonitor) : PumpBondingMonitor :=
  {| session := Some tt;
     running := true;
     token_cache := token_cache self;
     cache_ttl := cache_ttl self;
     live_tokens := live_tokens self |}.

(** [stop] closes the feed and the session; a request on the closed
    session raises. *)
Definition stop (self : PumpBondingMonitor) : PumpBondingMonitor :=
  {| session := session self;
     running := false;
     token_cache := token_cache self;
     cache_ttl := cache_ttl self;
     live_tokens := live_tokens self |}.

(** A trade message of the feed, after [json.loads]. *)
Record ws_message := {
  txType : option string;
  msg_mint : option string;
  msg_symbol : option string;
  msg_name : option string;
  marketCapSol : option (result float);
  vSolInBondingCurve : option (result float);
  msg_timestamp : option Z
}.

(** [now] is the reading of the event loop's clock. *)
Definition _process_websocket_message
    (now : float) (self : PumpBondingMonitor) (msg : ws_message)
  : PumpBondingMonitor :=
  let body : result PumpBondingMonitor :=
    if bool_decide (txType msg ∈ [Some "buy"; Some "sell"]) then
      match msg_mint msg with
      | None | Some EmptyString => Return self
      | Some mint =>
          cap ← get_conv (marketCapSol msg) 0%float;
          sol ← get_conv (vSolInBondingCurve msg) 0%float;
          let entry :=
            {| ld_mint := mint;
               ld_symbol := default "UNKNOWN" (msg_symbol msg);
               ld_name := default "Unknown" (msg_name msg);
               ld_market_cap_usd := (cap * 200)%float;
               ld_sol_amount := sol;
               ld_last_trade_timestamp := msg_timestamp msg;
               ld_last_updated := now |} in
          Return {| session := session self;
                    running := running self;
                    token_cache := token_cache self;
                    cache_ttl := cache_ttl self;
                    live_tokens := <[mint := entry]> (live_tokens self) |}
      end
    else Return self in
  match body with
  | Return self' => self'
  | Raise _ => self
  end.

(** What [resp.json()] yields: a falsy value ([None], [{}], [[]], ...),
    a truthy value that is not an object, or an object. *)
Inductive json_value :=
| JsonFalsy
| JsonOther
| JsonObject (c : coin).

Record response := {
  status : Z;
  json : result json_value
}.

(** The outside world during one call of [get_curve_progress]: the three
    readings of the clock, in program order, and what
    [session.get(url, timeout=5)] does (it raises on a timeout or a
    connection error). *)
Record env := {
  now_live : float;
  now_cache : float;
  now_store : float;
  http_get : string -> result response
}.

(** The tiers a lookup went through, in order. *)
Inductive tier := LiveTier | CacheTier | PumpfunApiTier | HeliusTier.

Section Resolver.

(** [os.getenv('HELIUS_API_KEY', '')] *)
Variable HELIUS_API_KEY : string.

Definition _get_from_pumpfun_api
    (w : env) (self : PumpBondingMonitor) (token_mint : string)
  : result (option curve_data) :=
  try_except
    (let url := "https://frontend-api.pump.fun/coins/" +:+ token_mint in
     _ ← match session self with
         | Some _ => Return tt
         | None => Raise (Exception "AttributeError")
         end;
     resp ← http_get w url;
     if negb (status resp =? 200)%Z then Return None
     else
       body ← json resp;
       match body with
       | JsonFalsy => Return None
       | JsonOther => Raise (Exception "AttributeError")
       | JsonObject c =>
           market_cap ← get_conv (usd_market_cap c) 0%float;
           let completion_pct :=
             Py.min ((market_cap / GRADUATION_MCAP) * 100)%float 100%float in
           holders ← get_conv (reply_count c) 0%Z;
           Return (Some
             {| completion_percent := completion_pct;
                market_cap_usd := market_cap;
                sol_raised := (market_cap / 200)%float;
                holder_count := Some holders;
                volume_24h := Some 0%float;
                source := "pumpfun_api";
                token_data := Some c |})
       end)
    (fun _ => Return None).

Definition _get_from_helius_fallback (token_mint : string)
  : result (option curve_data) :=
  try_except
    (if bool_decide (HELIUS_API_KEY = EmptyString) then Return None
     else Return None)
    (fun _ => Return None).

(** The [try] block of [get_curve_progress]: the value returned or the
    exception raised, the instance afterwards, and the tiers consulted. *)
Definition get_curve_progress_try
    (w : env) (self : PumpBondingMonitor) (token_mint : string)
  : result (option curve_data) * PumpBondingMonitor * list tier :=
  let live_hit :=
    match live_tokens self !! token_mint with
    | Some live =>
        let age := (now_live w - ld_last_updated live)%float in
        if (age <? 60)%float then
          let market_cap := ld_market_cap_usd live in
          let completion_pct :=
            Py.min ((market_cap / GRADUATION_MCAP) * 100)%float 100%float in
          Some {| completion_percent := completion_pct;
                  market_cap_usd := market_cap;
                  sol_raised := ld_sol_amount live;
                  holder_count := Some 0%Z;
                  volume_24h := Some 0%float;
                  source := "websocket_live";
                  token_data := None |}
        else None
    | None => None
    end in
  match live_hit with
  | Some snapshot => (Return (Some snapshot), self, [LiveTier])
  | None =>
      let cache_hit :=
        match token_cache self !! token_mint with
        | Some cached =>
            let age := (now_cache w - timestamp cached)%float in
            if (age <? cache_ttl self)%float then Some (data cached)
            else None
        | None => None
        end in
      match cache_hit with
      | Some snapshot =>
          (Return (Some snapshot), self, [LiveTier; CacheTier])
      | None =>
          match _get_from_pumpfun_api w self token_mint with
          | Raise e => (Raise e, self, [LiveTier; CacheTier; PumpfunApiTier])
          | Return (Some snapshot) =>
              let entry := {| data := snapshot; timestamp := now_store w |} in
              (Return (Some snapshot),
               {| session := session self;
                  running := running self;
                  token_cache := <[token_mint := entry]> (token_cache self);
                  cache_ttl := cache_ttl self;
                  live_tokens := live_tokens self |},
               [LiveTier; CacheTier; PumpfunApiTier])
          | Return None =>
              (_get_from_helius_fallback token_mint, self,
               [LiveTier; CacheTier; PumpfunApiTier; HeliusTier])
          end
      end
  end.

(** [get_curve_progress]: the [try] block under its
    [except Exception: return None]. *)
Definition get_curve_progress
    (w : env) (self : PumpBondingMonitor) (token_mint : string)
  : result (option curve_data) * PumpBondingMonitor * list tier :=
  let '(r, self', tiers) := get_curve_progress_try w self token_mint in
  (try_except r (fun _ => Return None), self', tiers).

End Resolver.

(** [get_cached_tokens_by_curve_range]; [current_time] is the reading of
    the clock.  The result dict has one row per live token kept. *)
Definition get_cached_tokens_by_curve_range
    (current_time : float) (self : PumpBondingMonitor)
    (min_pct max_pct max_age : float)
  : gmap string range_row :=
  omap (fun live =>
          let age := (current_time - ld_last_updated live)%float in
          if (max_age <? age)%float then None
          else
            let market_cap := ld_market_cap_usd live in
            let completion_pct :=
              Py.min ((market_cap / GRADUATION_MCAP) * 100)%float 100%float in
            if ((min_pct <=? completion_pct) && (completion_pct <=? max_pct))%float
            then Some {| r_completion_percent := completion_pct;
                         r_market_cap_usd := market_cap;
                         r_symbol := ld_symbol live;
                         r_source := "websocket" |}
            else None)
       (live_tokens self).

End PumpBondingMonitor.

(** ** early_signals_monitor.py *)

Module EarlySignalsMonitor.
Import PumpBondingMonitor.

(** 5 minutes to aggregate signals *)
Definition SIGNAL_AGGREGATION_WINDOW : Z := 300.
(** Minimum score to post early signal *)
Definition MIN_EARLY_CONVICTION : Z := 85.

(** The payload dict of one signal ([wallet_data], [call_data]); the
    coordinator only counts them. *)
Definition payload : Type := gmap string string.

(** The bundle the aggregator hands out for a hot token.  The four lists
    are read with [.get(key, [])], [signal_count] with
    [signal_data['signal_count']]. *)
Record signal_data := {
  smart_money : option (list payload);
  kols : option (list payload);
  telegram : option (list payload);
  twitter : option (list payload);
  signal_count : Z
}.

(** [_calculate_early_conviction].  The rationale strings collected in
    [reasons] only reach the log and are left out. *)
Definition _calculate_early_conviction
    (token_mint : string) (signal_data : signal_data) (curve_data : curve_data)
  : Z :=
  let score := 0%Z in
  (* Base score from curve position (earlier = better) *)
  let curve_pct := completion_percent curve_data in
  let score :=
    if (curve_pct <? 20)%float then (score + 40)%Z
    else if (curve_pct <? 40)%float then (score + 30)%Z
    else if (curve_pct <? 60)%float then (score + 20)%Z
    else (score + 10)%Z in
  (* Smart money signals (HUGE weight) *)
  let smart_money_count := len_get (smart_money signal_data) in
  let score :=
    if (3 <=? smart_money_count)%Z then (score + 50)%Z
    else if (2 <=? smart_money_count)%Z then (score + 40)%Z
    else if (1 <=? smart_money_count)%Z then (score + 30)%Z
    else score in
  (* KOL/caller signals *)
  let kol_count := len_get (kols signal_data) in
  let score :=
    if (2 <=? kol_count)%Z then (score + 35)%Z
    else if (1 <=? kol_count)%Z then (score + 25)%Z
    else score in
  (* Social signals (Telegram + Twitter) *)
  let tg_calls := len_get (telegram signal_data) in
  let x_calls := len_get (twitter signal_data) in
  let social_total := (tg_calls + x_calls)%Z in
  let score :=
    if (3 <=? social_total)%Z then (score + 30)%Z
    else if (2 <=? social_total)%Z then (score + 20)%Z
    else if (1 <=? social_total)%Z then (score + 10)%Z
    else score in
  (* Signal overlap bonus (multiple independent sources) *)
  let score :=
    if (4 <=? signal_count signal_data)%Z then (score + 25)%Z
    else if (3 <=? signal_count signal_data)%Z then (score + 15)%Z
    else score in
  (* Volume velocity (if available from curve data) *)
  let score :=
    if (10000 <? default 0 (volume_24h curve_data))%float then (score + 15)%Z
    else score in
  (* Holder growth *)
  let holder_count := default 0%Z (holder_count curve_data) in
  let score :=
    if (100 <? holder_count)%Z then (score + 10)%Z
    else if (50 <? holder_count)%Z then (score + 5)%Z
    else score in
  score.

(** The keyword arguments of one call of the signal callback. *)
Record alert := {
  alert_token : string;
  signal_type : string;
  early_score : Z;
  curve_completion : float;
  alert_signal_data : signal_data
}.

(** The instance attributes read by the evaluation.  The callback is the
    coroutine function registered with [set_signal_callback]: awaiting it
    returns or raises. *)
Record EarlySignalsMonitor := {
  bonding_monitor : PumpBondingMonitor;
  processed_tokens : gset string;
  signal_callback : option (alert -> result unit);
  running : bool
}.

Definition __init__ : EarlySignalsMonitor :=
  {| bonding_monitor := PumpBondingMonitor.__init__;
     processed_tokens := ∅;
     signal_callback := None;
     running := false |}.

Definition set_signal_callback
    (self : EarlySignalsMonitor) (callback : alert -> result unit)
  : EarlySignalsMonitor :=
  {| bonding_monitor := bonding_monitor self;
     processed_tokens := processed_tokens self;
     signal_callback := Some callback;
     running := running self |}.

(** [self.processed_tokens.add(token_mint)] *)
Definition mark_processed (self : EarlySignalsMonitor) (token_mint : string)
  : EarlySignalsMonitor :=
  {| bonding_monitor := bonding_monitor self;
     processed_tokens := {[token_mint]} ∪ processed_tokens self;
     signal_callback := signal_callback self;
     running := running self |}.

(** What the coordinator does that is visible from outside, in order: its
    log lines, the curve lookup and the call of the signal callback. *)
Inductive event :=
| Evaluating (token_mint : string)
| CurveLookup (token_mint : string) (tiers : list tier)
| NoCurveData (token_mint : string)
| TooLate (token_mint : string) (curve_pct : float)
| InRange (token_mint : string) (curve_pct : float)
| Scored (early_score : Z)
| UltraEarly (token_mint : string) (early_score : Z)
| Callback (a : alert)
| BelowThreshold (early_score : Z)
| EvaluationError (e : exception)
| LoopError (e : exception).

(** The outside world during one evaluation: the world of the curve
    lookup, and what the handler's
    [logger.error(f"Error evaluating early token: {e}", exc_info=True)]
    does with the exception it caught.  loguru formats a message that comes
    with a keyword argument ([message.format(exc_info=True)]), so the call
    can raise: it does when the text of the exception has braces that do
    not format (a [KeyError], an [IndexError] or a [ValueError]).
    Otherwise it returns, the line written. *)
Record eval_env := {
  curve_env : env;
  logger_error : exception -> result unit
}.

Section Coordinator.

Variable HELIUS_API_KEY : string.

(** [_evaluate_early_token]: what the call returns or raises, the
    instance afterwards and the log.  In the [try] block only the lookup and
    the callback can raise.  The handler logs the error; when the logger
    itself raises, that exception leaves the function.  What was written to
    the instance before a raise stays written. *)
Definition _evaluate_early_token
    (w : eval_env) (self : EarlySignalsMonitor)
    (token_mint : string) (signal_data : signal_data)
  : result unit * EarlySignalsMonitor * list event :=
  (* Get bonding curve progress *)
  let '(looked_up, monitor', tiers) :=
    get_curve_progress HELIUS_API_KEY (curve_env w) (bonding_monitor self)
      token_mint in
  let self :=
    {| bonding_monitor := monitor';
       processed_tokens := processed_tokens self;
       signal_callback := signal_callback self;
       running := running self |} in
  let log := [Evaluating token_mint; CurveLookup token_mint tiers] in
  let '(body, self, log) :=
    match looked_up with
    | Raise e => (Raise e, self, log)
    | Return None => (Return tt, self, log ++ [NoCurveData token_mint])
    | Return (Some curve_data) =>
        let curve_pct := completion_percent curve_data in
        (* Only signal if in early range (0-70%) *)
        if (70 <? curve_pct)%float then
          (Return tt, mark_processed self token_mint,
           log ++ [TooLate token_mint curve_pct])
        else
          let log := log ++ [InRange token_mint curve_pct] in
          let early_score :=
            _calculate_early_conviction token_mint signal_data curve_data in
          let log := log ++ [Scored early_score] in
          (* Only post if ultra-high conviction *)
          if (MIN_EARLY_CONVICTION <=? early_score)%Z then
            let log := log ++ [UltraEarly token_mint early_score] in
            (* Mark as processed *)
            let self := mark_processed self token_mint in
            (* Trigger callback to post signal *)
            match signal_callback self with
            | Some callback =>
                let a := {| alert_token := token_mint;
                            signal_type := "ultra_early";
                            early_score := early_score;
                            curve_completion := curve_pct;
                            alert_signal_data := signal_data |} in
                (callback a, self, log ++ [Callback a])
            | None => (Return tt, self, log)
            end
          else (Return tt, self, log ++ [BelowThreshold early_score])
    end in
  (* except Exception as e: logger.error(..., exc_info=True) *)
  match body with
  | Return _ => (Return tt, self, log)
  | Raise e =>
      match logger_error w e with
      | Return _ => (Return tt, self, log ++ [EvaluationError e])
      | Raise e' => (Raise e', self, log)
      end
  end.

(** The [for] loop of [_aggregation_loop] over the items of [hot_tokens].
    [w] is the outside world at the evaluation of each token and [has_seen]
    what [await self.db.has_seen(token_mint)] does.  An exception, of
    [has_seen] or out of an evaluation, ends the loop: the tokens after it
    are not looked at. *)
Fixpoint evaluate_hot_tokens
    (w : string -> eval_env) (has_seen : string -> result bool)
    (hot_tokens : list (string * signal_data)) (self : EarlySignalsMonitor)
  : result unit * EarlySignalsMonitor * list event :=
  match hot_tokens with
  | [] => (Return tt, self, [])
  | (token_mint, signal_data) :: rest =>
      (* Skip if already processed *)
      if bool_decide (token_mint ∈ processed_tokens self) then
        evaluate_hot_tokens w has_seen rest self
      else
        match has_seen token_mint with
        | Raise e => (Raise e, self, [])
        (* Skip if already in database (already signaled) *)
        | Return true => evaluate_hot_tokens w has_seen rest self
        | Return false =>
            let '(evaluated, self, log) :=
              _evaluate_early_token (w token_mint) self token_mint signal_data in
            match evaluated with
            | Raise e => (Raise e, self, log)
            | Return _ =>
                let '(r, self, log') :=
                  evaluate_hot_tokens w has_seen rest self in
                (r, self, log ++ log')
            end
        end
  end.

(** The feed listener shares the bonding monitor with the loop: the trade
    messages it processed while the loop slept, each with its clock
    reading. *)
Definition feed
    (trades : list (float * ws_message)) (self : EarlySignalsMonitor)
  : EarlySignalsMonitor :=
  {| bonding_monitor :=
       foldl (fun monitor trade =>
                _process_websocket_message trade.1 monitor trade.2)
             (bonding_monitor self) trades;
     processed_tokens := processed_tokens self;
     signal_callback := signal_callback self;
     running := running self |}.

(** What one iteration of [while self.running] meets: the trades fed since
    the previous iteration, what [await self.aggregator.get_hot_tokens(...)]
    does (the items of the dict it returns, in order, or the exception it
    raises), the database, the outside world of each evaluation, and what
    the handler's [logger.error(f"Error in aggregation loop: {e}",
    exc_info=True)] does with the exception it caught. *)
Record pass := {
  pass_trades : list (float * ws_message);
  pass_hot_tokens : result (list (string * signal_data));
  pass_has_seen : string -> result bool;
  pass_env : string -> eval_env;
  pass_logger_error : exception -> result unit
}.

(** [_aggregation_loop] over the iterations it makes, as many as [passes]
    lists.  The loop makes no iteration when [running] is false; it never
    writes [running] itself ([stop], called from another task, does, and
    [passes] lists the iterations made until then).  An exception that ends
    the [try] block of an iteration is logged and the loop goes on with the
    next iteration; when the logger itself raises, that exception ends the
    loop. *)
Fixpoint _aggregation_loop
    (passes : list pass) (self : EarlySignalsMonitor)
  : result unit * EarlySignalsMonitor * list event :=
  match passes with
  | [] => (Return tt, self, [])
  | p :: rest =>
      if running self then
        let self := feed (pass_trades p) self in
        let '(tried, self, log) :=
          (* Get tokens with multiple signals *)
          match pass_hot_tokens p with
          | Raise e => (Raise e, self, [])
          | Return hot_tokens =>
              evaluate_hot_tokens (pass_env p) (pass_has_seen p) hot_tokens self
          end in
        match tried with
        | Return _ =>
            let '(r, self, log') := _aggregation_loop rest self in
            (r, self, log ++ log')
        | Raise e =>
            match pass_logger_error p e with
            | Return _ =>
                let '(r, self, log') := _aggregation_loop rest self in
                (r, self, log ++ LoopError e :: log')
            | Raise e' => (Raise e', self, log)
            end
        end
      else (Return tt, self, [])
  end.

End Coordinator.

End EarlySignalsMonitor.

(** ** Vocabulary of the statements *)

Module Facts.
Import PumpBondingMonitor EarlySignalsMonitor.

(** *** Binary64 numbers by class *)

(** Not a [nan]. *)
Definition sf_number (x : spec_float) : Prop :=
  match x with
  | S754_nan => False
  | _ => True
  end.

(** A zero, an infinity or a finite number with sign bit [s]. *)
Definition sf_signed (s : bool) (x : spec_float) : Prop :=
  match x with
  | S754_zero s' | S754_infinity s' | S754_finite s' _ _ => s' = s
  | S754_nan => False
  end.

(** A zero of either sign, [+inf] or a positive finite number:
    the floats [x] with [0 <= x]. *)
Definition sf_nonneg (x : spec_float) : Prop :=
  match x with
  | S754_zero _ => True
  | S754_infinity s | S754_finite s _ _ => s = false
  | S754_nan => False
  end.

(** *** The resolver *)

(** The completion percentage belongs to the market cap: the clamp
    expression the three producers share. *)
Definition clamped (market_cap completion_pct : float) : Prop :=
  completion_pct = Py.min ((market_cap / GRADUATION_MCAP) * 100)%float 100%float.

(** The bounds a completion percentage obeys: never above 100 for a
    market cap that is a number, and within [0, 100] for a market cap
    that is not negative. *)
Definition completion_bounds (market_cap completion_pct : float) : Prop :=
  (is_nan market_cap = false -> (completion_pct <=? 100)%float = true) /\
  ((0 <=? market_cap)%float = true ->
   (0 <=? completion_pct)%float = true /\ (completion_pct <=? 100)%float = true).

(** The snapshot the live tier builds from an entry of [live_tokens]. *)
Definition live_snapshot (live : live_data) : curve_data :=
  {| completion_percent :=
       Py.min ((ld_market_cap_usd live / GRADUATION_MCAP) * 100)%float 100%float;
     market_cap_usd := ld_market_cap_usd live;
     sol_raised := ld_sol_amount live;
     holder_count := Some 0%Z;
     volume_24h := Some 0%float;
     source := "websocket_live";
     token_data := None |}.

(** A snapshot as the Pump.fun tier builds them. *)
Definition api_snapshot (snapshot : curve_data) : Prop :=
  clamped (market_cap_usd snapshot) (completion_percent snapshot) /\
  source snapshot = "pumpfun_api" /\
  volume_24h snapshot = Some 0%float.

(** The cache holds what the Pump.fun tier stored: true of [__init__]
    and kept by every method. *)
Definition cache_wf (self : PumpBondingMonitor) : Prop :=
  forall token_mint entry,
    token_cache self !! token_mint = Some entry -> api_snapshot (data entry).

(** The monitors a run can reach from [__init__]. *)
Inductive reachable : PumpBondingMonitor -> Prop :=
| reach_init : reachable PumpBondingMonitor.__init__
| reach_start self : reachable self -> reachable (start self)
| reach_stop self : reachable self -> reachable (stop self)
| reach_message now self msg :
    reachable self -> reachable (_process_websocket_message now self msg)
| reach_lookup key w self token_mint :
    reachable self ->
    reachable (get_curve_progress key w self token_mint).1.2.

(** No usable entry in the live tier, nor in the cache. *)
Definition live_miss (w : env) (self : PumpBondingMonitor) (token_mint : string)
  : Prop :=
  forall live, live_tokens self !! token_mint = Some live ->
               (now_live w - ld_last_updated live <? 60)%float = false.

Definition cache_miss (w : env) (self : PumpBondingMonitor) (token_mint : string)
  : Prop :=
  forall cached, token_cache self !! token_mint = Some cached ->
                 (now_cache w - timestamp cached <? cache_ttl self)%float = false.

(** The failure modes of the Pump.fun tier: no session, a timeout or a
    connection error, a status other than 200, a body that is not JSON,
    a JSON value that is empty or not an object, a field that does not
    convert. *)
Inductive api_failure (self : PumpBondingMonitor) : result response -> Prop :=
| no_session r :
    session self = None -> api_failure self r
| request_raises e :
    api_failure self (Raise e)
| bad_status resp :
    status resp <> 200%Z -> api_failure self (Return resp)
| json_raises resp e :
    json resp = Raise e -> api_failure self (Return resp)
| json_falsy resp :
    json resp = Return JsonFalsy -> api_failure self (Return resp)
| json_not_object resp :
    json resp = Return JsonOther -> api_failure self (Return resp)
| bad_market_cap resp c e :
    json resp = Return (JsonObject c) -> usd_market_cap c = Some (Raise e) ->
    api_failure self (Return resp)
| bad_reply_count resp c e :
    json resp = Return (JsonObject c) -> reply_count c = Some (Raise e) ->
    api_failure self (Return resp).

Definition coin_url (token_mint : string) : string :=
  "https://frontend-api.pump.fun/coins/" +:+ token_mint.

(** The four ways a lookup ends. *)
Inductive lookup_outcome (w : env) (self : PumpBondingMonitor) (token_mint : string)
  : result (option curve_data) * PumpBondingMonitor * list tier -> Prop :=
| from_live live :
    live_tokens self !! token_mint = Some live ->
    (now_live w - ld_last_updated live <? 60)%float = true ->
    lookup_outcome w self token_mint
      (Return (Some (live_snapshot live)), self, [LiveTier])
| from_cache cached :
    live_miss w self token_mint ->
    token_cache self !! token_mint = Some cached ->
    (now_cache w - timestamp cached <? cache_ttl self)%float = true ->
    lookup_outcome w self token_mint
      (Return (Some (data cached)), self, [LiveTier; CacheTier])
| from_api snapshot :
    live_miss w self token_mint ->
    cache_miss w self token_mint ->
    _get_from_pumpfun_api w self token_mint = Return (Some snapshot) ->
    lookup_outcome w self token_mint
      (Return (Some snapshot),
       {| session := session self;
          PumpBondingMonitor.running := PumpBondingMonitor.running self;
          token_cache :=
            <[token_mint := {| data := snapshot; timestamp := now_store w |}]>
              (token_cache self);
          cache_ttl := cache_ttl self;
          live_tokens := live_tokens self |},
       [LiveTier; CacheTier; PumpfunApiTier])
| absent :
    live_miss w self token_mint ->
    cache_miss w self token_mint ->
    _get_from_pumpfun_api w self token_mint = Return None ->
    lookup_outcome w self token_mint
      (Return None, self, [LiveTier; CacheTier; PumpfunApiTier; HeliusTier]).

(** *** The scorer, factor by factor *)

Definition curve_points (curve_pct : float) : Z :=
  if (curve_pct <? 20)%float then 40
  else if (curve_pct <? 40)%float then 30
  else if (curve_pct <? 60)%float then 20
  else 10.

Definition smart_money_points (smart_money_count : Z) : Z :=
  if (3 <=? smart_money_count)%Z then 50
  else if (2 <=? smart_money_count)%Z then 40
  else if (1 <=? smart_money_count)%Z then 30
  else 0.

Definition kol_points (kol_count : Z) : Z :=
  if (2 <=? kol_count)%Z then 35
  else if (1 <=? kol_count)%Z then 25
  else 0.

Definition social_points (social_total : Z) : Z :=
  if (3 <=? social_total)%Z then 30
  else if (2 <=? social_total)%Z then 20
  else if (1 <=? social_total)%Z then 10
  else 0.

Definition convergence_points (signal_count : Z) : Z :=
  if (4 <=? signal_count)%Z then 25
  else if (3 <=? signal_count)%Z then 15
  else 0.

Definition volume_points (volume : float) : Z :=
  if (10000 <? volume)%float then 15 else 0.

Definition holder_points (holders : Z) : Z :=
  if (100 <? holders)%Z then 10
  else if (50 <? holders)%Z then 5
  else 0.

(** The five factors that do not read the volume or the holder count. *)
Definition signal_points (signal_data : signal_data) (curve_pct : float) : Z :=
  curve_points curve_pct
  + smart_money_points (len_get (smart_money signal_data))
  + kol_points (len_get (kols signal_data))
  + social_points (len_get (telegram signal_data) + len_get (twitter signal_data))
  + convergence_points (signal_count signal_data).

(** *** The coordinator *)

(** The bundle with its smart-money list replaced. *)
Definition with_smart_money
    (events : option (list payload)) (bundle : signal_data) : signal_data :=
  {| smart_money := events;
     kols := kols bundle;
     telegram := telegram bundle;
     twitter := twitter bundle;
     signal_count := signal_count bundle |}.

End Facts.

(** ** Concrete runs *)

Module Samples.
Import PumpBondingMonitor EarlySignalsMonitor Facts.

(** No Helius key in the environment. *)
Definition no_key : string := EmptyString.

(** The feed's last trade of token MINT, at market cap [cap]. *)
Definition trade (cap updated : float) : live_data :=
  {| ld_mint := "MINT";
     ld_symbol := "MNT";
     ld_name := "Mint";
     ld_market_cap_usd := cap;
     ld_sol_amount := 30;
     ld_last_trade_timestamp := Some 1700000000%Z;
     ld_last_updated := updated |}.

(** A started monitor whose feed saw MINT at clock 990. *)
Definition fed (cap : float) : PumpBondingMonitor :=
  {| session := Some tt;
     PumpBondingMonitor.running := true;
     token_cache := ∅;
     cache_ttl := 30;
     live_tokens := {[ "MINT" := trade cap 990 ]} |}.

(** A started monitor that never heard of the token. *)
Definition unfed : PumpBondingMonitor :=
  {| session := Some tt;
     PumpBondingMonitor.running := true;
     token_cache := ∅;
     cache_ttl := 30;
     live_tokens := ∅ |}.

(** Clock at 1000; every request times out. *)
Definition offline : env :=
  {| now_live := 1000;
     now_cache := 1000;
     now_store := 1000;
     http_get := fun _ => Raise (Exception "TimeoutError") |}.

(** Clock at 1000; the API answers 200 with the given market cap and 120
    replies. *)
Definition online (cap : float) : env :=
  {| now_live := 1000;
     now_cache := 1000;
     now_store := 1000;
     http_get := fun _ =>
       Return {| status := 200;
                 json := Return (JsonObject
                   {| usd_market_cap := Some (Return cap);
                      reply_count := Some (Return 120%Z) |}) |} |}.

(** Clock at 1000; the API gives the answer [r]. *)
Definition answering (r : response) : env :=
  {| now_live := 1000;
     now_cache := 1000;
     now_store := 1000;
     http_get := fun _ => Return r |}.

(** An evaluation in the world [w] of the lookup, with a logger that
    writes every line it is given: the texts have no braces. *)
Definition plain (w : env) : eval_env :=
  {| curve_env := w;
     logger_error := fun _ => Return tt |}.

(** A coordinator with a callback that succeeds and nothing processed. *)
Definition coordinator (monitor : PumpBondingMonitor) : EarlySignalsMonitor :=
  {| bonding_monitor := monitor;
     processed_tokens := ∅;
     signal_callback := Some (fun _ => Return tt);
     EarlySignalsMonitor.running := true |}.

Definition call : payload := {[ "caller" := "alpha" ]}.
Definition buy : payload := {[ "name" := "whale" ]}.

(** One Telegram call and one Twitter call. *)
Definition two_calls : signal_data :=
  {| smart_money := None;
     kols := None;
     telegram := Some [call];
     twitter := Some [call];
     signal_count := 2 |}.

(** Scenario A: three smart-money buys and one Telegram call. *)
Definition scenario_a : signal_data :=
  {| smart_money := Some [buy; buy; buy];
     kols := Some [];
     telegram := Some [call];
     twitter := None;
     signal_count := 4 |}.

(** Every factor at its top tier. *)
Definition every_signal : signal_data :=
  {| smart_money := Some [buy; buy; buy];
     kols := Some [call; call];
     telegram := Some [call; call];
     twitter := Some [call];
     signal_count := 8 |}.

(** The next iteration: no new trade, MINT still hot with the same two
    calls, unknown to the database, the API still unreachable. *)
Definition still_hot : pass :=
  {| pass_trades := [];
     pass_hot_tokens := Return [("MINT", two_calls)];
     pass_has_seen := fun _ => Return false;
     pass_env := fun _ => plain offline;
     pass_logger_error := fun _ => Return tt |}.

Definition busy_snapshot : curve_data :=
  {| completion_percent := 5;
     market_cap_usd := 3450;
     sol_raised := 17.25;
     holder_count := Some 250%Z;
     volume_24h := Some 50000%float;
     source := "pumpfun_api";
     token_data := None |}.

End Samples.

(** ** Vocabulary of the further properties *)

Module Runs.
Import PumpBondingMonitor EarlySignalsMonitor Facts.

(** *** The feed *)

(** The message is a buy or a sell of [mint] whose two numbers convert to
    [cap] (market cap in SOL) and [sol]. *)
Definition carries_trade
    (msg : ws_message) (mint : string) (cap sol : float) : Prop :=
  (txType msg = Some "buy" \/ txType msg = Some "sell")
  /\ msg_mint msg = Some mint
  /\ mint <> EmptyString
  /\ get_conv (marketCapSol msg) 0%float = Return cap
  /\ get_conv (vSolInBondingCurve msg) 0%float = Return sol.

(** The message is of another type, names no mint, or holds a number that
    does not convert. *)
Definition ignored (msg : ws_message) : Prop :=
  (txType msg <> Some "buy" /\ txType msg <> Some "sell")
  \/ msg_mint msg = None
  \/ msg_mint msg = Some EmptyString
  \/ (exists e, marketCapSol msg = Some (Raise e))
  \/ (exists e, vSolInBondingCurve msg = Some (Raise e)).

(** The entry a trade message leaves in [live_tokens]. *)
Definition live_entry
    (now : float) (msg : ws_message) (mint : string) (cap sol : float)
  : live_data :=
  {| ld_mint := mint;
     ld_symbol := default "UNKNOWN" (msg_symbol msg);
     ld_name := default "Unknown" (msg_name msg);
     ld_market_cap_usd := (cap * 200)%float;
     ld_sol_amount := sol;
     ld_last_trade_timestamp := msg_timestamp msg;
     ld_last_updated := now |}.

(** The monitor after the listener processed the trades in order. *)
Definition fed_with
    (trades : list (float * ws_message)) (monitor : PumpBondingMonitor)
  : PumpBondingMonitor :=
  foldl (fun monitor trade =>
           _process_websocket_message trade.1 monitor trade.2)
        monitor trades.

(** *** The resolver *)

(** Two monitors a lookup of [token_mint] cannot tell apart. *)
Definition agree_at
    (token_mint : string) (m1 m2 : PumpBondingMonitor) : Prop :=
  live_tokens m1 !! token_mint = live_tokens m2 !! token_mint
  /\ token_cache m1 !! token_mint = token_cache m2 !! token_mint
  /\ session m1 = session m2
  /\ cache_ttl m1 = cache_ttl m2.

(** The row the range scan builds from an entry of [live_tokens]. *)
Definition range_row_of (live : live_data) : range_row :=
  {| r_completion_percent :=
       Py.min ((ld_market_cap_usd live / GRADUATION_MCAP) * 100)%float 100%float;
     r_market_cap_usd := ld_market_cap_usd live;
     r_symbol := ld_symbol live;
     r_source := "websocket" |}.

(** *** The coordinator *)

(** The coordinator with its bonding monitor replaced. *)
Definition with_monitor
    (self : EarlySignalsMonitor) (monitor : PumpBondingMonitor)
  : EarlySignalsMonitor :=
  {| bonding_monitor := monitor;
     processed_tokens := processed_tokens self;
     signal_callback := signal_callback self;
     EarlySignalsMonitor.running := EarlySignalsMonitor.running self |}.

(** The arguments the callback gets for a token, its bundle and its
    snapshot. *)
Definition alert_of
    (token_mint : string) (bundle : signal_data) (snapshot : curve_data)
  : alert :=
  {| alert_token := token_mint;
     signal_type := "ultra_early";
     early_score := _calculate_early_conviction token_mint bundle snapshot;
     curve_completion := completion_percent snapshot;
     alert_signal_data := bundle |}.

(** The ways an evaluation ends. *)
Inductive evaluation
    (key : string) (w : eval_env) (self : EarlySignalsMonitor)
    (token_mint : string) (bundle : signal_data)
  : result unit * EarlySignalsMonitor * list event -> Prop :=
| skipped monitor' tiers :
    get_curve_progress key (curve_env w) (bonding_monitor self) token_mint
      = (Return None, monitor', tiers) ->
    evaluation key w self token_mint bundle
      (Return tt, with_monitor self monitor',
       [Evaluating token_mint; CurveLookup token_mint tiers;
        NoCurveData token_mint])
| too_late snapshot monitor' tiers :
    get_curve_progress key (curve_env w) (bonding_monitor self) token_mint
      = (Return (Some snapshot), monitor', tiers) ->
    (70 <? completion_percent snapshot)%float = true ->
    evaluation key w self token_mint bundle
      (Return tt, mark_processed (with_monitor self monitor') token_mint,
       [Evaluating token_mint; CurveLookup token_mint tiers;
        TooLate token_mint (completion_percent snapshot)])
| below_threshold snapshot monitor' tiers :
    get_curve_progress key (curve_env w) (bonding_monitor self) token_mint
      = (Return (Some snapshot), monitor', tiers) ->
    (70 <? completion_percent snapshot)%float = false ->
    (_calculate_early_conviction token_mint bundle snapshot
     < MIN_EARLY_CONVICTION)%Z ->
    evaluation key w self token_mint bundle
      (Return tt, with_monitor self monitor',
       [Evaluating token_mint; CurveLookup token_mint tiers;
        InRange token_mint (completion_percent snapshot);
        Scored (_calculate_early_conviction token_mint bundle snapshot);
        BelowThreshold (_calculate_early_conviction token_mint bundle snapshot)])
| alerted snapshot monitor' tiers callback :
    get_curve_progress key (curve_env w) (bonding_monitor self) token_mint
      = (Return (Some snapshot), monitor', tiers) ->
    (70 <? completion_percent snapshot)%float = false ->
    (MIN_EARLY_CONVICTION
     <= _calculate_early_conviction token_mint bundle snapshot)%Z ->
    signal_callback self = Some callback ->
    callback (alert_of token_mint bundle snapshot) = Return tt ->
    evaluation key w self token_mint bundle
      (Return tt, mark_processed (with_monitor self monitor') token_mint,
       [Evaluating token_mint; CurveLookup token_mint tiers;
        InRange token_mint (completion_percent snapshot);
        Scored (_calculate_early_conviction token_mint bundle snapshot);
        UltraEarly token_mint
          (_calculate_early_conviction token_mint bundle snapshot);
        Callback (alert_of token_mint bundle snapshot)])
| alert_failed snapshot monitor' tiers callback e :
    get_curve_progress key (curve_env w) (bonding_monitor self) token_mint
      = (Return (Some snapshot), monitor', tiers) ->
    (70 <? completion_percent snapshot)%float = false ->
    (MIN_EARLY_CONVICTION
     <= _calculate_early_conviction token_mint bundle snapshot)%Z ->
    signal_callback self = Some callback ->
    callback (alert_of token_mint bundle snapshot) = Raise e ->
    logger_error w e = Return tt ->
    evaluation key w self token_mint bundle
      (Return tt, mark_processed (with_monitor self monitor') token_mint,
       [Evaluating token_mint; CurveLookup token_mint tiers;
        InRange token_mint (completion_percent snapshot);
        Scored (_calculate_early_conviction token_mint bundle snapshot);
        UltraEarly token_mint
          (_calculate_early_conviction token_mint bundle snapshot);
        Callback (alert_of token_mint bundle snapshot);
        EvaluationError e])
| alert_escaped snapshot monitor' tiers callback e e' :
    get_curve_progress key (curve_env w) (bonding_monitor self) token_mint
      = (Return (Some snapshot), monitor', tiers) ->
    (70 <? completion_percent snapshot)%float = false ->
    (MIN_EARLY_CONVICTION
     <= _calculate_early_conviction token_mint bundle snapshot)%Z ->
    signal_callback self = Some callback ->
    callback (alert_of token_mint bundle snapshot) = Raise e ->
    logger_error w e = Raise e' ->
    evaluation key w self token_mint bundle
      (Raise e', mark_processed (with_monitor self monitor') token_mint,
       [Evaluating token_mint; CurveLookup token_mint tiers;
        InRange token_mint (completion_percent snapshot);
        Scored (_calculate_early_conviction token_mint bundle snapshot);
        UltraEarly token_mint
          (_calculate_early_conviction token_mint bundle snapshot);
        Callback (alert_of token_mint bundle snapshot)])
| alert_unheard snapshot monitor' tiers :
    get_curve_progress key (curve_env w) (bonding_monitor self) token_mint
      = (Return (Some snapshot), monitor', tiers) ->
    (70 <? completion_percent snapshot)%float = false ->
    (MIN_EARLY_CONVICTION
     <= _calculate_early_conviction token_mint bundle snapshot)%Z ->
    signal_callback self = None ->
    evaluation key w self token_mint bundle
      (Return tt, mark_processed (with_monitor self monitor') token_mint,
       [Evaluating token_mint; CurveLookup token_mint tiers;
        InRange token_mint (completion_percent snapshot);
        Scored (_calculate_early_conviction token_mint bundle snapshot);
        UltraEarly token_mint
          (_calculate_early_conviction token_mint bundle snapshot)]).

(** How often the callback was called for [token_mint] in a log. *)
Fixpoint alert_count (token_mint : string) (log : list event) : nat :=
  match log with
  | [] => 0
  | Callback a :: rest =>
      (if bool_decide (alert_token a = token_mint) then 1 else 0)
      + alert_count token_mint rest
  | _ :: rest => alert_count token_mint rest
  end.

(** The tokens of a list of hot tokens. *)
Definition tokens_of (hot_tokens : list (string * signal_data)) : list string :=
  hot_tokens.*1.

(** *** Invariants of a pass and of the loop *)

(** The processed set of a pass: it only grows, and only by hot tokens. *)
Definition pass_grows
    (self : EarlySignalsMonitor) (hot_tokens : list (string * signal_data))
    (out : result unit * EarlySignalsMonitor * list event) : Prop :=
  processed_tokens self ⊆ processed_tokens out.1.2
  /\ (forall token_mint, token_mint ∈ processed_tokens out.1.2 ->
        token_mint ∈ processed_tokens self \/ token_mint ∈ tokens_of hot_tokens)
  /\ signal_callback out.1.2 = signal_callback self
  /\ EarlySignalsMonitor.running out.1.2 = EarlySignalsMonitor.running self.

(** The callbacks of a pass, counted per token. *)
Definition pass_counts
    (self : EarlySignalsMonitor) (hot_tokens : list (string * signal_data))
    (out : result unit * EarlySignalsMonitor * list event) : Prop :=
  processed_tokens self ⊆ processed_tokens out.1.2
  /\ forall token_mint,
      (token_mint ∈ processed_tokens self -> alert_count token_mint out.2 = 0)
      /\ alert_count token_mint out.2 <= 1
      /\ (0 < alert_count token_mint out.2 ->
          token_mint ∈ processed_tokens out.1.2)
      /\ (token_mint ∉ tokens_of hot_tokens ->
          alert_count token_mint out.2 = 0).

(** Who is evaluated and who is alerted in a pass. *)
Definition pass_selects
    (has_seen : string -> result bool)
    (self : EarlySignalsMonitor) (hot_tokens : list (string * signal_data))
    (out : result unit * EarlySignalsMonitor * list event) : Prop :=
  processed_tokens self ⊆ processed_tokens out.1.2
  /\ (forall token_mint,
        Evaluating token_mint ∈ out.2 ->
        (token_mint ∉ processed_tokens self)
        /\ has_seen token_mint = Return false
        /\ token_mint ∈ tokens_of hot_tokens)
  /\ (forall a,
        Callback a ∈ out.2 ->
        (alert_token a ∉ processed_tokens self)
        /\ alert_token a ∈ processed_tokens out.1.2
        /\ has_seen (alert_token a) = Return false
        /\ exists bundle snapshot,
            (alert_token a, bundle) ∈ hot_tokens
            /\ a = alert_of (alert_token a) bundle snapshot
            /\ (70 <? completion_percent snapshot)%float = false
            /\ (MIN_EARLY_CONVICTION
                <= _calculate_early_conviction (alert_token a) bundle snapshot)%Z).

(** The same over the iterations of the loop. *)
Definition loop_keeps
    (self : EarlySignalsMonitor) (passes : list pass)
    (out : result unit * EarlySignalsMonitor * list event) : Prop :=
  processed_tokens self ⊆ processed_tokens out.1.2
  /\ signal_callback out.1.2 = signal_callback self
  /\ EarlySignalsMonitor.running out.1.2 = EarlySignalsMonitor.running self
  /\ (forall token_mint,
        token_mint ∈ processed_tokens out.1.2 ->
        token_mint ∈ processed_tokens self
        \/ exists p hot_tokens,
             p ∈ passes
             /\ pass_hot_tokens p = Return hot_tokens
             /\ token_mint ∈ tokens_of hot_tokens)
  /\ (forall token_mint,
        (token_mint ∈ processed_tokens self ->
         alert_count token_mint out.2 = 0)
        /\ alert_count token_mint out.2 <= 1
        /\ (0 < alert_count token_mint out.2 ->
            token_mint ∈ processed_tokens out.1.2))
  /\ (forall token_mint,
        Evaluating token_mint ∈ out.2 ->
        (token_mint ∉ processed_tokens self)
        /\ exists p hot_tokens,
             p ∈ passes
             /\ pass_hot_tokens p = Return hot_tokens
             /\ pass_has_seen p token_mint = Return false
             /\ token_mint ∈ tokens_of hot_tokens)
  /\ (forall a,
        Callback a ∈ out.2 ->
        (alert_token a ∉ processed_tokens self)
        /\ alert_token a ∈ processed_tokens out.1.2
        /\ exists p hot_tokens bundle snapshot,
            p ∈ passes
            /\ pass_hot_tokens p = Return hot_tokens
            /\ pass_has_seen p (alert_token a) = Return false
            /\ (alert_token a, bundle) ∈ hot_tokens
            /\ a = alert_of (alert_token a) bundle snapshot
            /\ (70 <? completion_percent snapshot)%float = false
            /\ (MIN_EARLY_CONVICTION
                <= _calculate_early_conviction (alert_token a) bundle snapshot)%Z).

(** The iteration [p], made on [self], gets to [token_mint]:
    [get_hot_tokens] returns the token with [bundle], after the tokens
    [before], none of which is the token; nothing raises while the loop
    goes through [before]; and the database has not seen the token. *)
Definition reaches
    (key : string) (p : pass) (self : EarlySignalsMonitor)
    (before : list (string * signal_data))
    (token_mint : string) (bundle : signal_data)
    (after : list (string * signal_data)) : Prop :=
  pass_hot_tokens p = Return (before ++ (token_mint, bundle) :: after)
  /\ (token_mint ∉ tokens_of before)
  /\ (evaluate_hot_tokens key (pass_env p) (pass_has_seen p) before
        (feed (pass_trades p) self)).1.1 = Return tt
  /\ pass_has_seen p token_mint = Return false.



(** A coordinator whose bonding monitor has no session and holds no live
    entry and no cache entry: the state [__init__] leaves. *)
Definition unstarted (self : EarlySignalsMonitor) : Prop :=
  session (bonding_monitor self) = None
  /\ live_tokens (bonding_monitor self) = ∅
  /\ token_cache (bonding_monitor self) = ∅.

(** *** The scorer *)

(** No count of [b1] exceeds the count of [b2]. *)
Definition bundle_le (b1 b2 : signal_data) : Prop :=
  (len_get (smart_money b1) <= len_get (smart_money b2))%Z
  /\ (len_get (kols b1) <= len_get (kols b2))%Z
  /\ (len_get (telegram b1) + len_get (twitter b1)
      <= len_get (telegram b2) + len_get (twitter b2))%Z
  /\ (signal_count b1 <= signal_count b2)%Z.

(** The second snapshot is earlier on the curve and has no less volume and
    no fewer holders than the first. *)
Definition snapshot_le (s1 s2 : curve_data) : Prop :=
  (completion_percent s2 <=? completion_percent s1)%float = true
  /\ (default 0 (volume_24h s1) <=? default 0 (volume_24h s2))%float = true
  /\ (default 0 (holder_count s1) <= default 0 (holder_count s2))%Z.

End Runs.

(** ** Further concrete runs *)

Module MoreSamples.
Import PumpBondingMonitor EarlySignalsMonitor Facts Samples Runs.

(** A buy of [mint] at a market cap of [cap] SOL. *)
Definition buy_of (mint : string) (cap : float) : ws_message :=
  {| txType := Some "buy";
     msg_mint := Some mint;
     msg_symbol := Some "MNT";
     msg_name := Some "Mint";
     marketCapSol := Some (Return cap);
     vSolInBondingCurve := Some (Return 30%float);
     msg_timestamp := Some 1700000000%Z |}.

(** A message of the feed that is not a trade. *)
Definition subscribed : ws_message :=
  {| txType := None;
     msg_mint := None;
     msg_symbol := None;
     msg_name := None;
     marketCapSol := None;
     vSolInBondingCurve := None;
     msg_timestamp := None |}.

(** A sell of MINT whose market cap is not a number. *)
Definition garbled : ws_message :=
  {| txType := Some "sell";
     msg_mint := Some "MINT";
     msg_symbol := None;
     msg_name := None;
     marketCapSol := Some (Raise (Exception "ValueError"));
     vSolInBondingCurve := None;
     msg_timestamp := None |}.

(** A callback whose post fails. *)
Definition failing : alert -> result unit :=
  fun _ => Raise (Exception "TelegramError").

(** MINT and OTHER hot in the same iteration, MINT with scenario A. *)
Definition two_hot : pass :=
  {| pass_trades := [(995%float, buy_of "MINT" 51.75)];
     pass_hot_tokens := Return [("OTHER", two_calls); ("MINT", scenario_a)];
     pass_has_seen := fun _ => Return false;
     pass_env := fun _ => plain offline;
     pass_logger_error := fun _ => Return tt |}.

(** A later iteration: a trade of MINT arrived, OTHER is hot before MINT,
    and MINT is hot with scenario A by now. *)
Definition mint_second : pass :=
  {| pass_trades := [(995%float, buy_of "MINT" 51.75)];
     pass_hot_tokens := Return [("OTHER", two_calls); ("MINT", scenario_a)];
     pass_has_seen := fun _ => Return false;
     pass_env := fun _ => plain offline;
     pass_logger_error := fun _ => Return tt |}.

(** An evaluation whose handler cannot log what it caught: the text of the
    exception has a replacement field that [str.format] cannot fill. *)
Definition unformattable (w : env) : eval_env :=
  {| curve_env := w;
     logger_error := fun _ => Raise (Exception "KeyError") |}.

(** MINT hot with scenario A, then OTHER; the text of whatever the callback
    raises for MINT does not format, the database is down for no token. *)
Definition mint_first : pass :=
  {| pass_trades := [(995%float, buy_of "MINT" 51.75);
                     (996%float, buy_of "OTHER" 51.75)];
     pass_hot_tokens := Return [("MINT", scenario_a); ("OTHER", scenario_a)];
     pass_has_seen := fun _ => Return false;
     pass_env := fun _ => unformattable offline;
     pass_logger_error := fun _ => Return tt |}.

(** The database is down: [has_seen] raises for every token. *)
Definition database_down : pass :=
  {| pass_trades := [];
     pass_hot_tokens := Return [("MINT", two_calls)];
     pass_has_seen := fun _ => Raise (Exception "OperationalError");
     pass_env := fun _ => plain offline;
     pass_logger_error := fun _ => Return tt |}.

(** A coordinator with the given callback, if any, and nothing processed. *)
Definition coordinator_with
    (callback : option (alert -> result unit)) (monitor : PumpBondingMonitor)
  : EarlySignalsMonitor :=
  {| bonding_monitor := monitor;
     processed_tokens := ∅;
     signal_callback := callback;
     EarlySignalsMonitor.running := true |}.

(** The alert of scenario A. *)
Definition alert_a : alert :=
  {| alert_token := "MINT";
     signal_type := "ultra_early";
     early_score := 125;
     curve_completion := 15;
     alert_signal_data := scenario_a |}.

(** The coordinator [__init__] builds, after [set_signal_callback] and the
    first line of [start]. *)
Definition constructed : EarlySignalsMonitor :=
  {| bonding_monitor := PumpBondingMonitor.__init__;
     processed_tokens := ∅;
     signal_callback := Some (fun _ => Return tt);
     EarlySignalsMonitor.running := true |}.

(** An iteration without trades in which MINT is hot with scenario A and
    the API would answer with a market cap of 10350. *)
Definition hot_online : pass :=
  {| pass_trades := [];
     pass_hot_tokens := Return [("MINT", scenario_a)];
     pass_has_seen := fun _ => Return false;
     pass_env := fun _ => plain (online 10350);
     pass_logger_error := fun _ => Return tt |}.

(** Scenario A with one smart-money buy less. *)
Definition scenario_a_less : signal_data :=
  {| smart_money := Some [buy; buy];
     kols := None;
     telegram := Some [call];
     twitter := None;
     signal_count := 3 |}.

(** A snapshot of the Pump.fun tier at 45 percent with 60 replies. *)
Definition later_snapshot : curve_data :=
  {| completion_percent := 45;
     market_cap_usd := 31050;
     sol_raised := 155.25;
     holder_count := Some 60%Z;
     volume_24h := Some 0%float;
     source := "pumpfun_api";
     token_data := None |}.

End MoreSamples.

(** ** Binary64 arithmetic used by the resolver *)

Module FloatFacts.
Import Facts.

Local Open Scope Z_scope.

(** Rounding keeps a mantissa that is not negative so; hence it keeps
    the sign it is given and never produces a [nan]. *)
Lemma shr_1_nonneg mrs : 0 <= shr_m mrs -> 0 <= shr_m (shr_1 mrs).
Proof.
  destruct mrs as [m r s]; simpl.
  destruct m as [|p|p]; simpl; try lia; destruct p; simpl; lia.
Qed.

Lemma iter_pos_preserves {A} (P : A -> Prop) (f : A -> A) :
  (forall a, P a -> P (f a)) ->
  forall p a, P a -> P (SpecFloat.iter_pos f p a).
Proof.
  intros Hf p; induction p; intros a Ha; simpl; auto.
Qed.

Lemma shr_nonneg mrs e n : 0 <= shr_m mrs -> 0 <= shr_m (fst (shr mrs e n)).
Proof.
  intros H. unfold shr. destruct n; simpl; auto.
  apply (iter_pos_preserves (fun r => 0 <= shr_m r)); auto using shr_1_nonneg.
Qed.

Lemma shr_record_of_loc_m m l : shr_m (shr_record_of_loc m l) = m.
Proof. destruct l as [|[]]; reflexivity. Qed.

Lemma shr_fexp_nonneg prec emax m e l :
  0 <= m -> 0 <= shr_m (fst (shr_fexp prec emax m e l)).
Proof.
  intros H. unfold shr_fexp. apply shr_nonneg.
  now rewrite shr_record_of_loc_m.
Qed.

Lemma round_nearest_even_nonneg m l : 0 <= m -> 0 <= round_nearest_even m l.
Proof.
  intros H. unfold round_nearest_even. destruct l as [|[]]; try lia.
  destruct (Z.even m); lia.
Qed.

Lemma binary_round_aux_signed prec emax s m e l :
  0 <= m -> sf_signed s (binary_round_aux prec emax s m e l).
Proof.
  intros H. unfold binary_round_aux.
  pose proof (shr_fexp_nonneg prec emax m e l H) as H1.
  destruct (shr_fexp prec emax m e l) as [mrs' e']. simpl in H1.
  pose proof (shr_fexp_nonneg prec emax _ e' loc_Exact
                (round_nearest_even_nonneg _ (loc_of_shr_record mrs') H1)) as H2.
  destruct (shr_fexp prec emax _ e' loc_Exact) as [mrs'' e'']. simpl in H2.
  destruct (shr_m mrs'') as [|p|p]; simpl; try reflexivity; try lia.
  destruct (Z.leb e'' (emax - prec)); reflexivity.
Qed.

Lemma SFdiv_core_nonneg prec emax mx ex my ey :
  0 <= fst (fst (SFdiv_core_binary prec emax (Zpos mx) ex (Zpos my) ey)).
Proof.
  unfold SFdiv_core_binary.
  set (s := ex - ey - _).
  set (m' := match s with Z0 => _ | Zpos _ => _ | Zneg _ => _ end).
  assert (0 <= m') as Hm.
  { subst m'. destruct s; try lia. apply Z.shiftl_nonneg. lia. }
  pose proof (Z.div_pos m' (Zpos my) Hm ltac:(lia)) as Hq.
  unfold Z.div in Hq. destruct (Z.div_eucl m' (Zpos my)) as [q r]. exact Hq.
Qed.

(** Dividing or multiplying by a positive finite number keeps the sign. *)
Lemma SFdiv_pos_signed prec emax s x my ey :
  sf_signed s x -> sf_signed s (SFdiv prec emax x (S754_finite false my ey)).
Proof.
  destruct x as [sx|sx| |sx mx ex]; simpl; intros H; subst;
    try (now destruct s); try contradiction.
  pose proof (SFdiv_core_nonneg prec emax mx ex my ey) as Hq.
  destruct (SFdiv_core_binary prec emax (Zpos mx) ex (Zpos my) ey) as [[mz ez] lz].
  simpl in Hq. rewrite xorb_false_r. now apply binary_round_aux_signed.
Qed.

Lemma SFmul_pos_signed prec emax s x my ey :
  sf_signed s x -> sf_signed s (SFmul prec emax x (S754_finite false my ey)).
Proof.
  destruct x as [sx|sx| |sx mx ex]; simpl; intros H; subst;
    try (now destruct s); try contradiction.
  rewrite xorb_false_r. apply binary_round_aux_signed. lia.
Qed.

Lemma signed_number s x : sf_signed s x -> sf_number x.
Proof. destruct x; simpl; auto. Qed.

Lemma number_signed x : sf_number x -> exists s, sf_signed s x.
Proof. destruct x; simpl; eauto; contradiction. Qed.

Lemma signed_nonneg x : sf_signed false x -> sf_nonneg x.
Proof. destruct x; simpl; auto. Qed.

Lemma SFdiv_pos_nonneg prec emax x my ey :
  sf_nonneg x -> sf_nonneg (SFdiv prec emax x (S754_finite false my ey)).
Proof.
  destruct x as [sx|sx| |sx mx ex]; intros H; try exact I; try contradiction;
    simpl in H; subst; apply signed_nonneg; now apply SFdiv_pos_signed.
Qed.

Lemma SFmul_pos_nonneg prec emax x my ey :
  sf_nonneg x -> sf_nonneg (SFmul prec emax x (S754_finite false my ey)).
Proof.
  destruct x as [sx|sx| |sx mx ex]; intros H; try exact I; try contradiction;
    simpl in H; subst; apply signed_nonneg; now apply SFmul_pos_signed.
Qed.

(** Comparison: swapping the arguments mirrors the outcome. *)
Lemma SFcompare_swap x y :
  SFcompare y x = option_map CompOpp (SFcompare x y).
Proof.
  destruct x as [s1|s1| |s1 m1 e1], y as [s2|s2| |s2 m2 e2]; simpl;
    try reflexivity; try (destruct s1; reflexivity);
    try (destruct s2; reflexivity); try (destruct s1, s2; reflexivity).
  destruct s1, s2; simpl; try reflexivity;
    rewrite (Z.compare_antisym e1 e2);
    pose proof (Pos.compare_cont_antisym m1 m2 Eq) as H; simpl in H;
    destruct (e1 ?= e2); simpl; try reflexivity;
    rewrite <- H; destruct (Pos.compare_cont Eq m1 m2); reflexivity.
Qed.

Lemma is_nan_spec x : is_nan x = true <-> Prim2SF x = S754_nan.
Proof.
  unfold is_nan. rewrite FloatAxioms.eqb_spec. unfold SFeqb.
  destruct (Prim2SF x) as [s|s| |s m e]; simpl.
  - split; discriminate.
  - destruct s; simpl; split; discriminate.
  - split; reflexivity.
  - destruct s; rewrite Z.compare_refl, Pos.compare_cont_refl; simpl;
      split; discriminate.
Qed.

Lemma is_nan_number x : is_nan x = false <-> sf_number (Prim2SF x).
Proof.
  pose proof (is_nan_spec x) as H.
  destruct (Prim2SF x); destruct (is_nan x); simpl; intuition congruence.
Qed.

Lemma leb_zero_nonneg x : (0 <=? x)%float = true <-> sf_nonneg (Prim2SF x).
Proof.
  rewrite FloatAxioms.leb_spec. change (Prim2SF 0) with (S754_zero false).
  unfold SFleb.
  destruct (Prim2SF x) as [s|s| |s m e]; simpl; try (destruct s); simpl;
    intuition congruence.
Qed.

Lemma nonneg_number x : (0 <=? x)%float = true -> is_nan x = false.
Proof.
  rewrite leb_zero_nonneg, is_nan_number. destruct (Prim2SF x); simpl; auto.
Qed.

(** [not (y < x)] gives [x <= y] between numbers, and [x <= y] always
    excludes [y < x]. *)
Lemma ltb_false_leb x y :
  is_nan x = false -> is_nan y = false ->
  (x <? y)%float = false -> (y <=? x)%float = true.
Proof.
  rewrite !is_nan_number, FloatAxioms.ltb_spec, FloatAxioms.leb_spec.
  unfold SFltb, SFleb. rewrite (SFcompare_swap (Prim2SF x) (Prim2SF y)).
  intros Nx Ny.
  destruct (SFcompare (Prim2SF x) (Prim2SF y)) as [[]|] eqn:E; simpl;
    try congruence.
  destruct (Prim2SF x), (Prim2SF y); simpl in *; try contradiction;
    discriminate.
Qed.


End FloatFacts.

(** ** The resolver: what each tier returns *)

Module ResolverFacts.
Import PumpBondingMonitor Facts FloatFacts.

Lemma ratio_number market_cap :
  is_nan market_cap = false ->
  is_nan (market_cap / GRADUATION_MCAP * 100)%float = false.
Proof.
  rewrite !is_nan_number, FloatAxioms.mul_spec, FloatAxioms.div_spec.
  intros H. destruct (number_signed _ H) as [s Hs].
  change (Prim2SF GRADUATION_MCAP) with (S754_finite false 4741643894784000 (-36)).
  change (Prim2SF 100) with (S754_finite false 7036874417766400 (-46)).
  apply (signed_number s). unfold SF64mul, SF64div.
  now apply SFmul_pos_signed, SFdiv_pos_signed.
Qed.

Lemma ratio_nonneg market_cap :
  (0 <=? market_cap)%float = true ->
  (0 <=? market_cap / GRADUATION_MCAP * 100)%float = true.
Proof.
  rewrite !leb_zero_nonneg, FloatAxioms.mul_spec, FloatAxioms.div_spec.
  intros H.
  change (Prim2SF GRADUATION_MCAP) with (S754_finite false 4741643894784000 (-36)).
  change (Prim2SF 100) with (S754_finite false 7036874417766400 (-46)).
  now apply SFmul_pos_nonneg, SFdiv_pos_nonneg.
Qed.

Lemma clamped_bounds market_cap completion_pct :
  clamped market_cap completion_pct -> completion_bounds market_cap completion_pct.
Proof.
  unfold clamped, Py.min. intros ->.
  assert (is_nan market_cap = false ->
          ((if (100 <? market_cap / GRADUATION_MCAP * 100)%float
            then 100%float else (market_cap / GRADUATION_MCAP * 100)%float)
           <=? 100)%float = true) as Hle.
  { intros Hn. destruct (100 <? _)%float eqn:E; [reflexivity|].
    apply ltb_false_leb; auto. now apply ratio_number. }
  split; [exact Hle|]. intros H0. split; [|auto using nonneg_number].
  destruct (100 <? _)%float; [reflexivity|]. now apply ratio_nonneg.
Qed.

Section WithKey.
Variable HELIUS_API_KEY : string.

Ltac run_result :=
  repeat (cbn [mbind mret result_bind result_ret try_except get_conv] in *).

Lemma _get_from_pumpfun_api_returns w self token_mint :
  exists r, _get_from_pumpfun_api w self token_mint = Return r.
Proof.
  unfold _get_from_pumpfun_api.
  match goal with |- context [try_except ?b _] => destruct b; simpl; eauto end.
Qed.

Lemma _get_from_pumpfun_api_snapshot w self token_mint snapshot :
  _get_from_pumpfun_api w self token_mint = Return (Some snapshot) ->
  api_snapshot snapshot.
Proof.
  unfold _get_from_pumpfun_api. destruct (session self); run_result;
    [|discriminate].
  destruct (http_get w _) as [resp|e]; run_result; [|discriminate].
  destruct (negb _); [discriminate|].
  destruct (json resp) as [[| |c]|e]; run_result; try discriminate.
  destruct (usd_market_cap c) as [[mc|e]|]; run_result; try discriminate;
    destruct (reply_count c) as [[h|e']|]; run_result; try discriminate;
    intros [= <-]; repeat split.
Qed.

Lemma api_failure_absent w self token_mint :
  api_failure self (http_get w (coin_url token_mint)) ->
  _get_from_pumpfun_api w self token_mint = Return None.
Proof.
  unfold _get_from_pumpfun_api, coin_url. intros H.
  destruct (session self) eqn:Hs; run_result; [|reflexivity].
  inversion H as [r Hn|e He|resp Hst He|resp e Hj He|resp Hj He|resp Hj He
                  |resp c e Hj Hc He|resp c e Hj Hc He]; subst;
    try congruence; try rewrite <- He; run_result; try reflexivity.
  - destruct (Z.eqb_spec (status resp) 200); [contradiction|reflexivity].
  - destruct (negb _); [reflexivity|]. now rewrite Hj.
  - destruct (negb _); [reflexivity|]. now rewrite Hj.
  - destruct (negb _); [reflexivity|]. now rewrite Hj.
  - destruct (negb _); [reflexivity|]. rewrite Hj; run_result.
    now rewrite Hc.
  - destruct (negb _); [reflexivity|]. rewrite Hj; run_result.
    rewrite Hc. destruct (usd_market_cap c) as [[mc|e']|]; reflexivity.
Qed.

Lemma _get_from_helius_fallback_absent token_mint :
  _get_from_helius_fallback HELIUS_API_KEY token_mint = Return None.
Proof.
  unfold _get_from_helius_fallback. now case_bool_decide.
Qed.

Lemma get_curve_progress_outcome w self token_mint :
  lookup_outcome w self token_mint
    (get_curve_progress HELIUS_API_KEY w self token_mint).
Proof.
  unfold get_curve_progress, get_curve_progress_try.
  assert (forall live, live_tokens self !! token_mint = Some live ->
            (now_live w - ld_last_updated live <? 60)%float = false ->
            live_miss w self token_mint) as stale_live
    by (intros live Hl Hage live' E; congruence).
  assert (live_tokens self !! token_mint = None ->
          live_miss w self token_mint) as no_live
    by (intros Hl live' E; congruence).
  assert (forall cached, token_cache self !! token_mint = Some cached ->
            (now_cache w - timestamp cached <? cache_ttl self)%float = false ->
            cache_miss w self token_mint) as stale_cache
    by (intros cached Hc Hage c' E; congruence).
  assert (token_cache self !! token_mint = None ->
          cache_miss w self token_mint) as no_cache
    by (intros Hc c' E; congruence).
  destruct (live_tokens self !! token_mint) as [live|] eqn:Hl;
    [destruct (now_live w - ld_last_updated live <? 60)%float eqn:Hage;
     [now apply from_live|]|];
    (destruct (token_cache self !! token_mint) as [cached|] eqn:Hc;
     [destruct (now_cache w - timestamp cached <? cache_ttl self)%float eqn:Hcage;
      [apply from_cache with (cached := cached); eauto|]|]);
    (destruct (_get_from_pumpfun_api_returns w self token_mint) as [[s|] Ha];
     rewrite Ha; simpl;
     [apply from_api; eauto
     |rewrite _get_from_helius_fallback_absent; apply absent; eauto]).
Qed.

End WithKey.
End ResolverFacts.

(** ** The scorer: one tier per factor *)

Module ScorerFacts.
Import PumpBondingMonitor EarlySignalsMonitor Facts.

Local Open Scope Z_scope.

(** A block [if .. score += a elif .. score += b ...] adds the points of
    the first tier whose test holds to the running score. *)
Lemma block4 (c1 c2 c3 : bool) (score a b c d : Z) :
  (if c1 then score + a else if c2 then score + b
   else if c3 then score + c else score + d)
  = score + (if c1 then a else if c2 then b else if c3 then c else d).
Proof. now destruct c1, c2, c3. Qed.

Lemma block3 (c1 c2 c3 : bool) (score a b c : Z) :
  (if c1 then score + a else if c2 then score + b
   else if c3 then score + c else score)
  = score + (if c1 then a else if c2 then b else if c3 then c else 0).
Proof. destruct c1, c2, c3; lia. Qed.

Lemma block2 (c1 c2 : bool) (score a b : Z) :
  (if c1 then score + a else if c2 then score + b else score)
  = score + (if c1 then a else if c2 then b else 0).
Proof. destruct c1, c2; lia. Qed.

Lemma block1 (c1 : bool) (score a : Z) :
  (if c1 then score + a else score) = score + (if c1 then a else 0).
Proof. destruct c1; lia. Qed.

(** The score is the sum of the seven factors. *)
Lemma score_factors token_mint bundle snapshot :
  _calculate_early_conviction token_mint bundle snapshot
  = signal_points bundle (completion_percent snapshot)
    + volume_points (default 0%float (volume_24h snapshot))
    + holder_points (default 0 (holder_count snapshot)).
Proof.
  unfold _calculate_early_conviction. cbv zeta.
  rewrite (block2 _ _ _ 10 5), (block1 _ _ 15), (block2 _ _ _ 25 15),
    (block3 _ _ _ _ 30 20 10), (block2 _ _ _ 35 25), (block3 _ _ _ _ 50 40 30),
    (block4 _ _ _ 0 40 30 20 10).
  unfold signal_points, curve_points, smart_money_points, kol_points,
    social_points, convergence_points, volume_points, holder_points.
  lia.
Qed.

Lemma curve_points_range curve_pct : 10 <= curve_points curve_pct <= 40.
Proof. unfold curve_points. repeat case_match; lia. Qed.

Lemma smart_money_points_range n : 0 <= smart_money_points n <= 50.
Proof. unfold smart_money_points. repeat case_match; lia. Qed.

Lemma kol_points_range n : 0 <= kol_points n <= 35.
Proof. unfold kol_points. repeat case_match; lia. Qed.

Lemma social_points_range n : 0 <= social_points n <= 30.
Proof. unfold social_points. repeat case_match; lia. Qed.

Lemma convergence_points_range n : 0 <= convergence_points n <= 25.
Proof. unfold convergence_points. repeat case_match; lia. Qed.

Lemma volume_points_range v : 0 <= volume_points v <= 15.
Proof. unfold volume_points. case_match; lia. Qed.

Lemma holder_points_range n : 0 <= holder_points n <= 10.
Proof. unfold holder_points. repeat case_match; lia. Qed.

(** More smart-money events never earn fewer points. *)
Lemma smart_money_points_mono n m :
  n <= m -> smart_money_points n <= smart_money_points m.
Proof.
  unfold smart_money_points. intros H.
  repeat match goal with
         | |- context [(?a <=? ?b)] => destruct (Z.leb_spec a b)
         end; lia.
Qed.

End ScorerFacts.

(** ** The coordinator: who is marked processed, who is evaluated *)

Module CoordinatorFacts.
Import PumpBondingMonitor EarlySignalsMonitor Facts Runs ResolverFacts.

Lemma tokens_of_cons token_mint (bundle : signal_data) rest :
  tokens_of ((token_mint, bundle) :: rest) = token_mint :: tokens_of rest.
Proof. reflexivity. Qed.

Lemma tokens_of_elem token_mint (bundle : signal_data) hot_tokens :
  (token_mint, bundle) ∈ hot_tokens -> token_mint ∈ tokens_of hot_tokens.
Proof.
  intros H. unfold tokens_of. now apply (list_elem_of_fmap_2 fst) in H.
Qed.

Lemma tokens_of_bundle token_mint hot_tokens :
  token_mint ∈ tokens_of hot_tokens ->
  exists bundle : signal_data, (token_mint, bundle) ∈ hot_tokens.
Proof.
  unfold tokens_of. intros H. apply list_elem_of_fmap_1 in H.
  destruct H as ([t b] & -> & Hin). eauto.
Qed.

Ltac evaluation_cases E :=
  inversion E as [m' tiers Hget|s m' tiers Hget Hlate
    |s m' tiers Hget Hlate Hscore|s m' tiers cb Hget Hlate Hscore Hcb Hcall
    |s m' tiers cb e Hget Hlate Hscore Hcb Hcall Hlog
    |s m' tiers cb e e' Hget Hlate Hscore Hcb Hcall Hlog
    |s m' tiers Hget Hlate Hscore Hcb];
  subst.

Section WithKey.
Variable HELIUS_API_KEY : string.

Local Abbreviation evaluate := (_evaluate_early_token HELIUS_API_KEY).
Local Abbreviation lookup := (get_curve_progress HELIUS_API_KEY).
Local Abbreviation run_pass := (evaluate_hot_tokens HELIUS_API_KEY).
Local Abbreviation run_loop := (_aggregation_loop HELIUS_API_KEY).


Lemma lookup_returns w monitor token_mint :
  exists found, (lookup w monitor token_mint).1.1 = Return found.
Proof.
  pose proof (get_curve_progress_outcome HELIUS_API_KEY w monitor token_mint) as O.
  inversion O; simpl; eauto.
Qed.

(** Every evaluation ends in one of the ways of [evaluation]. *)
Lemma evaluate_outcome w self token_mint bundle :
  evaluation HELIUS_API_KEY w self token_mint bundle
    (evaluate w self token_mint bundle).
Proof.
  unfold _evaluate_early_token.
  destruct (lookup (curve_env w) (bonding_monitor self) token_mint)
    as [[looked_up monitor'] tiers] eqn:Hget.
  destruct (lookup_returns (curve_env w) (bonding_monitor self) token_mint)
    as [found Hfound].
  rewrite Hget in Hfound. simpl in Hfound. subst looked_up.
  destruct found as [snapshot|];
    [|exact (skipped _ w self token_mint bundle monitor' tiers Hget)].
  cbv beta iota zeta.
  destruct (70 <? completion_percent snapshot)%float eqn:Hlate;
    [exact (too_late _ w self token_mint bundle snapshot monitor' tiers Hget Hlate)|].
  destruct (MIN_EARLY_CONVICTION <=? _)%Z eqn:Hscore.
  - apply Z.leb_le in Hscore. cbn [signal_callback mark_processed].
    change {| bonding_monitor := monitor';
              processed_tokens := processed_tokens self;
              signal_callback := signal_callback self;
              EarlySignalsMonitor.running := EarlySignalsMonitor.running self |}
      with (with_monitor self monitor').
    destruct (signal_callback self) as [callback|] eqn:Hcb.
    + change {| alert_token := token_mint;
                signal_type := "ultra_early";
                early_score :=
                  _calculate_early_conviction token_mint bundle snapshot;
                curve_completion := completion_percent snapshot;
                alert_signal_data := bundle |}
        with (alert_of token_mint bundle snapshot).
      destruct (callback _) as [[]|e] eqn:Hcall.
      * exact (alerted _ w self token_mint bundle snapshot monitor' tiers callback
                 Hget Hlate Hscore Hcb Hcall).
      * destruct (logger_error w e) as [[]|e'] eqn:Hlog.
        -- exact (alert_failed _ w self token_mint bundle snapshot monitor' tiers
                    callback e Hget Hlate Hscore Hcb Hcall Hlog).
        -- exact (alert_escaped _ w self token_mint bundle snapshot monitor' tiers
                    callback e e' Hget Hlate Hscore Hcb Hcall Hlog).
    + exact (alert_unheard _ w self token_mint bundle snapshot monitor' tiers
               Hget Hlate Hscore Hcb).
  - apply Z.leb_gt in Hscore.
    exact (below_threshold _ w self token_mint bundle snapshot monitor' tiers
             Hget Hlate Hscore).
Qed.

(** What an evaluation leaves alone. *)
Lemma evaluation_frame w self token_mint bundle out :
  evaluation HELIUS_API_KEY w self token_mint bundle out ->
  signal_callback out.1.2 = signal_callback self
  /\ EarlySignalsMonitor.running out.1.2 = EarlySignalsMonitor.running self
  /\ bonding_monitor out.1.2
     = (lookup (curve_env w) (bonding_monitor self) token_mint).1.2
  /\ processed_tokens self ⊆ processed_tokens out.1.2
  /\ (forall other, other ∈ processed_tokens out.1.2 ->
        other ∈ processed_tokens self \/ other = token_mint).
Proof.
  intros E. evaluation_cases E; rewrite Hget; simpl; repeat split; auto;
    try (apply union_subseteq_r);
    intros other; rewrite ?elem_of_union, ?elem_of_singleton; tauto.
Qed.

(** The log of an evaluation opens with its own token and its lookup, and
    names no other token. *)
Lemma evaluation_log_head w self token_mint bundle out :
  evaluation HELIUS_API_KEY w self token_mint bundle out ->
  exists rest,
    out.2 = Evaluating token_mint
            :: CurveLookup token_mint
                 (lookup (curve_env w) (bonding_monitor self) token_mint).2
            :: rest.
Proof. intros E. evaluation_cases E; rewrite Hget; simpl; eauto. Qed.

Lemma evaluation_log_token w self token_mint bundle out other :
  evaluation HELIUS_API_KEY w self token_mint bundle out ->
  Evaluating other ∈ out.2 -> other = token_mint.
Proof.
  intros E. evaluation_cases E; simpl; rewrite !elem_of_cons, elem_of_nil;
    intuition congruence.
Qed.

Lemma evaluate_keeps_processed w self token_mint bundle other :
  other ∈ processed_tokens self ->
  other ∈ processed_tokens (evaluate w self token_mint bundle).1.2.
Proof.
  intros H.
  destruct (evaluation_frame _ _ _ _ _ (evaluate_outcome w self token_mint bundle))
    as (_ & _ & _ & Hsub & _).
  now apply Hsub.
Qed.


(** A pass never evaluates a processed token, and keeps it processed. *)
Lemma pass_skips_processed w has_seen hot_tokens : forall self token_mint,
  token_mint ∈ processed_tokens self ->
  let out := run_pass w has_seen hot_tokens self in
  token_mint ∈ processed_tokens out.1.2 /\ Evaluating token_mint ∉ out.2.
Proof.
  induction hot_tokens as [|[head bundle] rest IH]; intros self token_mint Hin; simpl.
  { split; [done|]. apply not_elem_of_nil. }
  case_bool_decide as Hhead; [now apply IH|].
  destruct (has_seen head) as [[]|e]; [now apply IH| |].
  - pose proof (evaluate_keeps_processed (w head) self head bundle token_mint Hin)
      as Hk.
    pose proof (evaluation_log_token _ _ _ _ _ token_mint
                  (evaluate_outcome (w head) self head bundle)) as Hl.
    destruct (evaluate (w head) self head bundle) as [[r1 self1] log1].
    simpl in Hk, Hl.
    assert (Evaluating token_mint ∉ log1) as Hn1
      by (intros H; apply Hl in H; subst; contradiction).
    destruct r1 as [u|e]; [|simpl; auto].
    destruct (IH self1 token_mint Hk) as [Hp Hn].
    destruct (run_pass w has_seen rest self1) as [[r2 self2] log2].
    simpl in *. split; [done|]. rewrite elem_of_app. tauto.
  - simpl. split; [done|]. apply not_elem_of_nil.
Qed.

Lemma loop_skips_processed passes : forall self token_mint,
  token_mint ∈ processed_tokens self ->
  Evaluating token_mint ∉ (run_loop passes self).2.
Proof.
  induction passes as [|p rest IH]; intros self token_mint Hin; simpl.
  { apply not_elem_of_nil. }
  destruct (EarlySignalsMonitor.running self); [|apply not_elem_of_nil].
  destruct (pass_hot_tokens p) as [hot_tokens|e].
  - destruct (pass_skips_processed (pass_env p) (pass_has_seen p) hot_tokens
                (feed (pass_trades p) self) token_mint Hin) as [Hp Hn].
    destruct (run_pass _ _ hot_tokens (feed (pass_trades p) self))
      as [[r1 self1] log1].
    simpl in Hp, Hn. specialize (IH self1 token_mint Hp).
    destruct r1 as [u|e]; [|destruct (pass_logger_error p e)];
      try (destruct (run_loop rest self1) as [[r2 self2] log2]); simpl in *;
      rewrite ?elem_of_app, ?elem_of_cons; intuition discriminate.
  - specialize (IH (feed (pass_trades p) self) token_mint Hin).
    destruct (pass_logger_error p e);
      try (destruct (run_loop rest (feed (pass_trades p) self))
             as [[r2 self2] log2]); simpl in *;
      rewrite ?elem_of_app, ?elem_of_cons, ?elem_of_nil; intuition discriminate.
Qed.








End WithKey.
End CoordinatorFacts.

(** ** The cache only ever holds Pump.fun snapshots *)

Module CacheInvariant.
Import PumpBondingMonitor Facts ResolverFacts.

Lemma cache_wf_init : cache_wf PumpBondingMonitor.__init__.
Proof. intros token_mint entry H. simpl in H. now rewrite lookup_empty in H. Qed.

Lemma cache_wf_lookup key w self token_mint :
  cache_wf self -> cache_wf (get_curve_progress key w self token_mint).1.2.
Proof.
  intros Hwf.
  destruct (get_curve_progress_outcome key w self token_mint)
    as [live Hl Hage|cached Hm Hc Hage|snapshot Hm Hcm Hapi|Hm Hcm Hapi];
    simpl; auto.
  intros other entry. simpl. rewrite lookup_insert.
  case_decide; [|apply Hwf].
  intros [= <-]. simpl. eapply _get_from_pumpfun_api_snapshot; eauto.
Qed.

Lemma cache_wf_message now self msg :
  cache_wf self -> cache_wf (_process_websocket_message now self msg).
Proof.
  intros Hwf. unfold _process_websocket_message.
  case_bool_decide; [|done].
  destruct (msg_mint msg) as [[|c mint]|]; try done.
  destruct (marketCapSol msg) as [[cap|e]|], (vSolInBondingCurve msg) as [[sol|e']|];
    simpl; done.
Qed.

Lemma reachable_cache_wf self : reachable self -> cache_wf self.
Proof.
  induction 1 as [|self _ IH|self _ IH|now self msg _ IH|key w self token_mint _ IH].
  - apply cache_wf_init.
  - exact IH.
  - exact IH.
  - now apply cache_wf_message.
  - now apply cache_wf_lookup.
Qed.

End CacheInvariant.

(** ** The resolver's properties *)

Module ResolverClaims.
Import PumpBondingMonitor EarlySignalsMonitor Facts Samples.
Import FloatFacts ResolverFacts ScorerFacts CoordinatorFacts.

(** What the clamp [min(..., 100)] does give.  Every snapshot of
    [get_curve_progress] (live tier, cache or Pump.fun tier) and every row of
    [get_cached_tokens_by_curve_range] has a completion percentage of at most
    100 when its market cap is a number, and one within [0, 100] when its
    market cap is not negative.  Nothing clamps from below. *)
Theorem completion_percent_bounds :
  (forall key w self token_mint snapshot monitor' tiers,
      cache_wf self ->
      get_curve_progress key w self token_mint
        = (Return (Some snapshot), monitor', tiers) ->
      completion_bounds (market_cap_usd snapshot) (completion_percent snapshot))
  /\
  (forall current_time self min_pct max_pct max_age token_mint row,
      get_cached_tokens_by_curve_range current_time self min_pct max_pct max_age
        !! token_mint = Some row ->
      completion_bounds (r_market_cap_usd row) (r_completion_percent row)).
Proof.
  split.
  - intros key w self token_mint snapshot monitor' tiers Hwf Hget.
    apply clamped_bounds.
    pose proof (get_curve_progress_outcome key w self token_mint) as O.
    rewrite Hget in O.
    inversion O as [live Hl Hage|cached Hm Hc Hage|s Hm Hcm Hapi|Hm Hcm Hapi]; subst.
    + reflexivity.
    + now apply (Hwf token_mint cached).
    + now apply (_get_from_pumpfun_api_snapshot w self token_mint).
  - intros current_time self min_pct max_pct max_age token_mint row.
    unfold get_cached_tokens_by_curve_range. rewrite lookup_omap.
    destruct (live_tokens self !! token_mint) as [live|]; simpl; [|discriminate].
    destruct (max_age <? _)%float; [discriminate|].
    destruct (_ && _); [|discriminate].
    intros [= <-]. now apply clamped_bounds.
Qed.

Lemma completion_percent_bounds_witness :
  completion_bounds
    (market_cap_usd (live_snapshot (trade 10350 990)))
    (completion_percent (live_snapshot (trade 10350 990)))
  /\
  completion_bounds 10350 15.
Proof.
  split.
  - apply (proj1 completion_percent_bounds no_key offline (fed 10350) "MINT"
             (live_snapshot (trade 10350 990)) (fed 10350) [LiveTier]).
    + intros token_mint entry H. vm_compute in H. discriminate.
    + vm_compute. reflexivity.
  - apply (proj2 completion_percent_bounds 1000%float (fed 10350) 0%float 70%float
             300%float "MINT"
             {| r_completion_percent := 15; r_market_cap_usd := 10350;
                r_symbol := "MNT"; r_source := "websocket" |}).
    vm_compute. reflexivity.
Defined.

(** C2 fails on the code, against the docstring of [get_curve_progress],
    which gives [completion_percent] as a float in 0-100.  A trade reported
    at a market cap of -69000 gives a live snapshot at -100 percent, and so
    does the Pump.fun tier; a market cap that is [nan] gives [nan], which is
    on neither side of a bound.  The code clamps from above only. *)
Lemma negative_market_cap_below_zero :
  (get_curve_progress no_key offline (fed (-69000)) "MINT"
     = (Return (Some (live_snapshot (trade (-69000) 990))), fed (-69000), [LiveTier])
   /\ completion_percent (live_snapshot (trade (-69000) 990)) = (-100)%float
   /\ (0 <=? -100)%float = false)
  /\
  (exists snapshot monitor',
      get_curve_progress no_key (online (-69000)) unfed "MINT"
        = (Return (Some snapshot), monitor', [LiveTier; CacheTier; PumpfunApiTier])
      /\ completion_percent snapshot = (-100)%float)
  /\
  (completion_percent (live_snapshot (trade nan 990)) = nan
   /\ (0 <=? nan)%float = false /\ (nan <=? 100)%float = false).
Proof.
  split; [|split].
  - repeat split; vm_compute; reflexivity.
  - eexists _, _. split; vm_compute; reflexivity.
  - repeat split; vm_compute; reflexivity.
Qed.

(** C4.  When the live map holds an entry for the token whose age is
    under 60 seconds, [get_curve_progress] returns the snapshot built from
    that entry, tagged [websocket_live]; it consults the live tier only (not
    the cache, the Pump.fun API or the Helius fallback) and writes nothing. *)
Theorem fresh_live_entry_wins key w self token_mint live :
  live_tokens self !! token_mint = Some live ->
  (now_live w - ld_last_updated live <? 60)%float = true ->
  get_curve_progress key w self token_mint
    = (Return (Some (live_snapshot live)), self, [LiveTier])
  /\ source (live_snapshot live) = "websocket_live".
Proof.
  intros Hlive Hage. split; [|reflexivity].
  unfold get_curve_progress, get_curve_progress_try.
  now rewrite Hlive, Hage.
Qed.

Lemma fresh_live_entry_wins_witness :
  get_curve_progress "helius-key" (online 51750) (fed 10350) "MINT"
    = (Return (Some (live_snapshot (trade 10350 990))), fed 10350, [LiveTier])
  /\ source (live_snapshot (trade 10350 990)) = "websocket_live".
Proof.
  apply (fresh_live_entry_wins "helius-key" (online 51750) (fed 10350) "MINT"
           (trade 10350 990)).
  - vm_compute. reflexivity.
  - vm_compute. reflexivity.
Defined.

(** C8.  [get_curve_progress] always returns: its outcome is never a raised
    exception.  When neither the live tier nor the cache has a usable entry
    and the Pump.fun tier fails (no session, timeout or connection error,
    status other than 200, malformed body or field), the Helius tier returns
    nothing whether or not a key is configured, the lookup returns [None]
    with the monitor as it was, and the coordinator takes that [None] as a
    plain outcome: it logs the miss, raises nothing and changes nothing. *)
Theorem get_curve_progress_never_raises key w self token_mint :
  (exists found,
      (get_curve_progress key w self token_mint).1.1 = Return found)
  /\ _get_from_helius_fallback key token_mint = Return None
  /\ (live_miss w self token_mint ->
      cache_miss w self token_mint ->
      api_failure self (http_get w (coin_url token_mint)) ->
      get_curve_progress key w self token_mint
        = (Return None, self, [LiveTier; CacheTier; PumpfunApiTier; HeliusTier])
      /\ forall logger processed callback active bundle,
          let coordinator :=
            {| bonding_monitor := self;
               processed_tokens := processed;
               signal_callback := callback;
               EarlySignalsMonitor.running := active |} in
          _evaluate_early_token key {| curve_env := w; logger_error := logger |}
            coordinator token_mint bundle
            = (Return tt, coordinator,
               [Evaluating token_mint;
                CurveLookup token_mint
                  [LiveTier; CacheTier; PumpfunApiTier; HeliusTier];
                NoCurveData token_mint])).
Proof.
  split; [apply lookup_returns|].
  split; [apply _get_from_helius_fallback_absent|].
  intros Hlive Hcache Hfail.
  apply (api_failure_absent w self token_mint) in Hfail.
  assert (get_curve_progress key w self token_mint
          = (Return None, self, [LiveTier; CacheTier; PumpfunApiTier; HeliusTier]))
    as Hget.
  { destruct (get_curve_progress_outcome key w self token_mint)
      as [live Hl Hage|cached Hm Hc Hage|snapshot Hm Hcm Hapi|Hm Hcm Hapi].
    - specialize (Hlive live Hl). congruence.
    - specialize (Hcache cached Hc). congruence.
    - congruence.
    - reflexivity. }
  split; [exact Hget|].
  intros logger processed callback active bundle coordinator.
  unfold _evaluate_early_token. subst coordinator. simpl. now rewrite Hget.
Qed.

Lemma get_curve_progress_never_raises_witness :
  get_curve_progress no_key offline unfed "MINT"
    = (Return None, unfed, [LiveTier; CacheTier; PumpfunApiTier; HeliusTier])
  /\ _evaluate_early_token no_key (plain offline) (coordinator unfed) "MINT"
       two_calls
     = (Return tt, coordinator unfed,
        [Evaluating "MINT";
         CurveLookup "MINT" [LiveTier; CacheTier; PumpfunApiTier; HeliusTier];
         NoCurveData "MINT"]).
Proof.
  destruct (get_curve_progress_never_raises no_key offline unfed "MINT")
    as (_ & _ & H).
  destruct H as [Hget Heval].
  - intros live E. vm_compute in E. discriminate.
  - intros cached E. vm_compute in E. discriminate.
  - apply request_raises.
  - split; [exact Hget|].
    exact (Heval (fun _ => Return tt) ∅ (Some (fun _ => Return tt)) true
             two_calls).
Defined.

(** The other failure modes, one run each: a 404, a body that is not
    JSON, a market cap that is [null], a monitor that was never started. *)
Example not_found_is_absent :
  get_curve_progress no_key
    (answering {| status := 404; json := Return JsonFalsy |}) unfed "MINT"
  = (Return None, unfed, [LiveTier; CacheTier; PumpfunApiTier; HeliusTier]).
Proof. vm_compute. reflexivity. Qed.

Example malformed_body_is_absent :
  get_curve_progress no_key
    (answering {| status := 200;
                  json := Raise (Exception "ContentTypeError") |}) unfed "MINT"
  = (Return None, unfed, [LiveTier; CacheTier; PumpfunApiTier; HeliusTier]).
Proof. vm_compute. reflexivity. Qed.

Example null_market_cap_is_absent :
  get_curve_progress "helius-key"
    (answering {| status := 200;
                  json := Return (JsonObject
                    {| usd_market_cap := Some (Raise (Exception "TypeError"));
                       reply_count := None |}) |}) unfed "MINT"
  = (Return None, unfed, [LiveTier; CacheTier; PumpfunApiTier; HeliusTier]).
Proof. vm_compute. reflexivity. Qed.

Example never_started_is_absent :
  get_curve_progress no_key (online 10350) PumpBondingMonitor.__init__ "MINT"
  = (Return None, PumpBondingMonitor.__init__,
     [LiveTier; CacheTier; PumpfunApiTier; HeliusTier]).
Proof. vm_compute. reflexivity. Qed.

(** C10.  A snapshot that comes from the live tier has [holder_count] 0 and
    [volume_24h] 0.  So a snapshot tagged [websocket_live] (with a cache that
    holds what the resolver stored, no other tier produces that tag) earns
    neither the volume bonus nor a holder bonus: its score is the sum of the
    five signal factors alone. *)
Theorem live_snapshot_earns_no_bonus key w self token_mint snapshot monitor' tiers :
  get_curve_progress key w self token_mint
    = (Return (Some snapshot), monitor', tiers) ->
  tiers = [LiveTier] \/ (cache_wf self /\ source snapshot = "websocket_live") ->
  holder_count snapshot = Some 0%Z
  /\ volume_24h snapshot = Some 0%float
  /\ volume_points (default 0%float (volume_24h snapshot)) = 0%Z
  /\ holder_points (default 0%Z (holder_count snapshot)) = 0%Z
  /\ forall token bundle,
      _calculate_early_conviction token bundle snapshot
        = signal_points bundle (completion_percent snapshot).
Proof.
  intros Hget Hfrom.
  assert (exists live, snapshot = live_snapshot live) as [live ->].
  { pose proof (get_curve_progress_outcome key w self token_mint) as O.
    rewrite Hget in O.
    inversion O as [live Hl Hage|cached Hm Hc Hage|s Hm Hcm Hapi|Hm Hcm Hapi];
      subst; [eauto| |].
    - destruct Hfrom as [?|[Hwf Hsrc]]; [discriminate|].
      destruct (Hwf token_mint cached Hc) as (_ & Hs & _). congruence.
    - destruct Hfrom as [?|[Hwf Hsrc]]; [discriminate|].
      destruct (_get_from_pumpfun_api_snapshot w self token_mint snapshot Hapi)
        as (_ & Hs & _). congruence. }
  repeat split. intros token bundle. rewrite score_factors. simpl.
  change (volume_points 0) with 0%Z. change (holder_points 0) with 0%Z. lia.
Qed.

Lemma live_snapshot_earns_no_bonus_witness :
  holder_count (live_snapshot (trade 10350 990)) = Some 0%Z
  /\ volume_24h (live_snapshot (trade 10350 990)) = Some 0%float
  /\ volume_points (default 0%float (volume_24h (live_snapshot (trade 10350 990)))) = 0%Z
  /\ holder_points (default 0%Z (holder_count (live_snapshot (trade 10350 990)))) = 0%Z
  /\ forall token bundle,
      _calculate_early_conviction token bundle (live_snapshot (trade 10350 990))
        = signal_points bundle (completion_percent (live_snapshot (trade 10350 990))).
Proof.
  apply (live_snapshot_earns_no_bonus no_key offline (fed 10350) "MINT"
           (live_snapshot (trade 10350 990)) (fed 10350) [LiveTier]).
  - vm_compute. reflexivity.
  - left. reflexivity.
Defined.

End ResolverClaims.

(** ** The scorer's properties *)

Module ScorerClaims.
Import PumpBondingMonitor EarlySignalsMonitor Facts Samples ScorerFacts.

Local Open Scope Z_scope.

Lemma score_with_smart_money token_mint events bundle snapshot :
  _calculate_early_conviction token_mint (with_smart_money events bundle) snapshot
  = _calculate_early_conviction token_mint (with_smart_money None bundle) snapshot
    + smart_money_points (len_get events).
Proof.
  rewrite !score_factors. unfold signal_points. simpl.
  change (smart_money_points (len_get None)) with 0. lia.
Qed.

(** C5.  One tier per factor: the score is the sum of seven factors, each
    worth the points of the highest tier that qualifies.  With five
    smart-money events the smart-money factor is worth 50: the score is 50
    plus the other six factors, which is 50 above the score of the same
    bundle without smart-money events and not 30 + 40 + 50 above it. *)
Theorem five_smart_money_events_add_fifty
    token_mint (events : list payload) bundle snapshot :
  length events = 5%nat ->
  _calculate_early_conviction token_mint
    (with_smart_money (Some events) bundle) snapshot
  = curve_points (completion_percent snapshot)
    + 50
    + kol_points (len_get (kols bundle))
    + social_points (len_get (telegram bundle) + len_get (twitter bundle))
    + convergence_points (signal_count bundle)
    + volume_points (default 0%float (volume_24h snapshot))
    + holder_points (default 0 (holder_count snapshot))
  /\ _calculate_early_conviction token_mint
       (with_smart_money (Some events) bundle) snapshot
     = _calculate_early_conviction token_mint
         (with_smart_money (Some []) bundle) snapshot + 50
  /\ _calculate_early_conviction token_mint
       (with_smart_money (Some events) bundle) snapshot
     <> _calculate_early_conviction token_mint
          (with_smart_money (Some []) bundle) snapshot + (30 + 40 + 50).
Proof.
  intros Hlen.
  assert (smart_money_points (len_get (Some events)) = 50) as Hpts.
  { unfold len_get. simpl. now rewrite Hlen. }
  split.
  - rewrite score_factors. unfold signal_points. simpl. rewrite Hpts. lia.
  - rewrite (score_with_smart_money _ (Some events)),
      (score_with_smart_money _ (Some [])), Hpts.
    change (smart_money_points (len_get (Some []))) with 0.
    split; lia.
Qed.

Lemma five_smart_money_events_add_fifty_witness :
  _calculate_early_conviction "MINT"
    (with_smart_money (Some [buy; buy; buy; buy; buy]) two_calls) busy_snapshot
  = curve_points (completion_percent busy_snapshot)
    + 50
    + kol_points (len_get (kols two_calls))
    + social_points (len_get (telegram two_calls) + len_get (twitter two_calls))
    + convergence_points (signal_count two_calls)
    + volume_points (default 0%float (volume_24h busy_snapshot))
    + holder_points (default 0 (holder_count busy_snapshot))
  /\ _calculate_early_conviction "MINT"
       (with_smart_money (Some [buy; buy; buy; buy; buy]) two_calls) busy_snapshot
     = _calculate_early_conviction "MINT"
         (with_smart_money (Some []) two_calls) busy_snapshot + 50
  /\ _calculate_early_conviction "MINT"
       (with_smart_money (Some [buy; buy; buy; buy; buy]) two_calls) busy_snapshot
     <> _calculate_early_conviction "MINT"
          (with_smart_money (Some []) two_calls) busy_snapshot + (30 + 40 + 50).
Proof.
  apply (five_smart_money_events_add_fifty "MINT" [buy; buy; buy; buy; buy]
           two_calls busy_snapshot).
  reflexivity.
Defined.

(** The score never drops when smart-money events are added. *)
Lemma score_mono_smart_money token_mint (fewer more : list payload) bundle snapshot :
  (length fewer <= length more)%nat ->
  _calculate_early_conviction token_mint
    (with_smart_money (Some fewer) bundle) snapshot
  <= _calculate_early_conviction token_mint
       (with_smart_money (Some more) bundle) snapshot.
Proof.
  intros Hlen.
  rewrite (score_with_smart_money _ (Some fewer)),
    (score_with_smart_money _ (Some more)).
  assert (len_get (Some fewer) <= len_get (Some more)) as Hle
    by (unfold len_get; simpl; lia).
  pose proof (smart_money_points_mono _ _ Hle). lia.
Qed.

(** C7.  With the curve snapshot and every other field of the bundle fixed,
    going from one smart-money event to three never lowers the score. *)
Theorem score_monotone_one_to_three
    token_mint (one three : list payload) bundle snapshot :
  length one = 1%nat ->
  length three = 3%nat ->
  _calculate_early_conviction token_mint
    (with_smart_money (Some one) bundle) snapshot
  <= _calculate_early_conviction token_mint
       (with_smart_money (Some three) bundle) snapshot.
Proof.
  intros H1 H3. apply score_mono_smart_money. lia.
Qed.

Lemma score_monotone_one_to_three_witness :
  _calculate_early_conviction "MINT"
    (with_smart_money (Some [buy]) two_calls) busy_snapshot
  <= _calculate_early_conviction "MINT"
       (with_smart_money (Some [buy; buy; buy]) two_calls) busy_snapshot.
Proof.
  apply (score_monotone_one_to_three "MINT" [buy] [buy; buy; buy]
           two_calls busy_snapshot); reflexivity.
Defined.

(** C9.  Whatever the snapshot and the bundle, the score lies between 10
    (the curve factor gives at least 10) and 205 = 40+50+35+30+25+15+10. *)
Theorem score_between_10_and_205 token_mint bundle snapshot :
  10 <= _calculate_early_conviction token_mint bundle snapshot <= 205.
Proof.
  rewrite score_factors. unfold signal_points.
  pose proof (curve_points_range (completion_percent snapshot)).
  pose proof (smart_money_points_range (len_get (smart_money bundle))).
  pose proof (kol_points_range (len_get (kols bundle))).
  pose proof (social_points_range
                (len_get (telegram bundle) + len_get (twitter bundle))).
  pose proof (convergence_points_range (signal_count bundle)).
  pose proof (volume_points_range (default 0%float (volume_24h snapshot))).
  pose proof (holder_points_range (default 0 (holder_count snapshot))).
  lia.
Qed.

(** Both bounds are reached. *)
Example score_reaches_205 :
  _calculate_early_conviction "MINT" every_signal busy_snapshot = 205.
Proof. vm_compute. reflexivity. Qed.

Example score_reaches_10 :
  _calculate_early_conviction "MINT"
    {| smart_money := None; kols := None; telegram := None; twitter := None;
       signal_count := 0 |}
    (live_snapshot (trade 69000 990)) = 10.
Proof. vm_compute. reflexivity. Qed.

End ScorerClaims.

(** ** The coordinator's properties *)

Module CoordinatorClaims.
Import PumpBondingMonitor EarlySignalsMonitor Facts Samples Runs MoreSamples.
Import FloatFacts ResolverFacts ScorerFacts CoordinatorFacts.



Lemma evaluate_alerted key w self token_mint bundle snapshot monitor' tiers :
  get_curve_progress key (curve_env w) (bonding_monitor self) token_mint
    = (Return (Some snapshot), monitor', tiers) ->
  (70 <? completion_percent snapshot)%float = false ->
  (MIN_EARLY_CONVICTION
   <= _calculate_early_conviction token_mint bundle snapshot)%Z ->
  let out := _evaluate_early_token key w self token_mint bundle in
  token_mint ∈ processed_tokens out.1.2
  /\ forall callback,
      signal_callback self = Some callback ->
      Callback {| alert_token := token_mint;
                  signal_type := "ultra_early";
                  early_score :=
                    _calculate_early_conviction token_mint bundle snapshot;
                  curve_completion := completion_percent snapshot;
                  alert_signal_data := bundle |} ∈ out.2.
Proof.
  intros Hget Hrange Hscore. unfold _evaluate_early_token. rewrite Hget.
  cbv beta iota zeta. rewrite Hrange.
  apply Z.leb_le in Hscore. rewrite Hscore.
  cbn [signal_callback mark_processed].
  destruct (signal_callback self) as [callback|].
  - destruct (callback _) as [u|e]; [|destruct (logger_error w e)];
      cbn [fst snd processed_tokens mark_processed];
      (split; [apply elem_of_union_l; now apply elem_of_singleton|]);
      intros ? [= <-]; rewrite !elem_of_app, !elem_of_cons; tauto.
  - cbn [fst snd processed_tokens mark_processed].
    split; [apply elem_of_union_l; now apply elem_of_singleton|]. discriminate.
Qed.







(** The retry at work: MINT finds no curve data, then a trade arrives, and
    the next iteration, which first goes through OTHER, evaluates MINT with
    the lookup of that moment and calls the callback. *)
Example retried_token_alerts :
  let self' :=
    (_evaluate_early_token no_key (plain offline) (coordinator unfed) "MINT"
       two_calls).1.2 in
  reaches no_key mint_second self' [("OTHER", two_calls)] "MINT" scenario_a []
  /\ (_aggregation_loop no_key [mint_second] self').2
     = [Evaluating "OTHER";
        CurveLookup "OTHER" [LiveTier; CacheTier; PumpfunApiTier; HeliusTier];
        NoCurveData "OTHER";
        Evaluating "MINT"; CurveLookup "MINT" [LiveTier]; InRange "MINT" 15;
        Scored 125; UltraEarly "MINT" 125; Callback alert_a].
Proof.
  cbv zeta. split; [|vm_compute; reflexivity].
  unfold reaches. split; [reflexivity|]. split; [|split].
  - unfold tokens_of. simpl. rewrite not_elem_of_cons, elem_of_nil.
    split; [discriminate|tauto].
  - vm_compute. reflexivity.
  - reflexivity.
Qed.

(** A pass cut short: when the database fails, the iteration ends at the
    first token it asks about, and the error is logged by the loop. *)
Example database_failure_ends_the_pass :
  _aggregation_loop no_key [database_down] (coordinator (fed 10350))
  = (Return tt, coordinator (fed 10350),
     [LoopError (Exception "OperationalError")]).
Proof. vm_compute. reflexivity. Qed.

(** C6.  Scenario A: a snapshot at 15 percent with no volume and no
    holders, three smart-money events, one Telegram call, no Twitter call,
    no KOL and [signal_count] 4 score 40 + 50 + 10 + 25 = 125.  That is at
    least 85, so the evaluation marks the token processed and calls the
    registered callback for the token with [signal_type] "ultra_early", the
    score 125, the completion and the bundle. *)
Theorem scenario_a_alerts
    key w self token_mint bundle snapshot monitor' tiers callback :
  get_curve_progress key (curve_env w) (bonding_monitor self) token_mint
    = (Return (Some snapshot), monitor', tiers) ->
  completion_percent snapshot = 15%float ->
  default 0%float (volume_24h snapshot) = 0%float ->
  default 0%Z (holder_count snapshot) = 0%Z ->
  len_get (smart_money bundle) = 3%Z ->
  len_get (telegram bundle) = 1%Z ->
  len_get (twitter bundle) = 0%Z ->
  len_get (kols bundle) = 0%Z ->
  signal_count bundle = 4%Z ->
  signal_callback self = Some callback ->
  let out := _evaluate_early_token key w self token_mint bundle in
  _calculate_early_conviction token_mint bundle snapshot = 125%Z
  /\ Callback {| alert_token := token_mint;
                 signal_type := "ultra_early";
                 early_score := 125;
                 curve_completion := 15;
                 alert_signal_data := bundle |} ∈ out.2
  /\ token_mint ∈ processed_tokens out.1.2.
Proof.
  intros Hget Hpct Hvol Hholders Hsmart Htg Hx Hkol Hcount Hcb out.
  assert (_calculate_early_conviction token_mint bundle snapshot = 125%Z) as Hscore.
  { rewrite score_factors. unfold signal_points.
    rewrite Hpct, Hvol, Hholders, Hsmart, Htg, Hx, Hkol, Hcount.
    vm_compute. reflexivity. }
  split; [exact Hscore|].
  assert ((70 <? completion_percent snapshot)%float = false) as Hrange
    by (rewrite Hpct; vm_compute; reflexivity).
  destruct (evaluate_alerted key w self token_mint bundle snapshot monitor' tiers
              Hget Hrange) as [Hin Hcall].
  { rewrite Hscore. vm_compute. discriminate. }
  split; [|exact Hin].
  specialize (Hcall callback Hcb). now rewrite Hscore, Hpct in Hcall.
Qed.

Lemma scenario_a_alerts_witness :
  let out :=
    _evaluate_early_token no_key (plain offline) (coordinator (fed 10350)) "MINT"
      scenario_a in
  _calculate_early_conviction "MINT" scenario_a (live_snapshot (trade 10350 990))
    = 125%Z
  /\ Callback {| alert_token := "MINT";
                 signal_type := "ultra_early";
                 early_score := 125;
                 curve_completion := 15;
                 alert_signal_data := scenario_a |} ∈ out.2
  /\ "MINT" ∈ processed_tokens out.1.2.
Proof.
  apply (scenario_a_alerts no_key (plain offline) (coordinator (fed 10350)) "MINT"
           scenario_a (live_snapshot (trade 10350 990)) (fed 10350) [LiveTier]
           (fun _ => Return tt));
    vm_compute; reflexivity.
Defined.

End CoordinatorClaims.

(** ** The feed and the resolver: further lemmas *)

Module ResolverMore.
Import PumpBondingMonitor Facts Runs FloatFacts ResolverFacts.

(** A strict comparison that holds one way fails the other way, and a
    comparison that holds has two numbers to compare. *)
Lemma ltb_asym x y : (x <? y)%float = true -> (y <? x)%float = false.
Proof.
  rewrite !FloatAxioms.ltb_spec. unfold SFltb.
  rewrite (SFcompare_swap (Prim2SF x) (Prim2SF y)).
  destruct (SFcompare (Prim2SF x) (Prim2SF y)) as [[]|]; simpl; congruence.
Qed.

Lemma leb_true_number x y :
  (x <=? y)%float = true -> is_nan x = false /\ is_nan y = false.
Proof.
  rewrite FloatAxioms.leb_spec, !is_nan_number. unfold SFleb.
  destruct (Prim2SF x), (Prim2SF y); simpl; try discriminate; auto.
Qed.

(** The clamp of a market cap is a number only if the market cap is. *)
Lemma clamp_number_inv market_cap :
  is_nan (Py.min ((market_cap / GRADUATION_MCAP) * 100)%float 100%float) = false ->
  is_nan market_cap = false.
Proof.
  intros H. destruct (is_nan market_cap) eqn:E; [|reflexivity].
  apply is_nan_spec in E.
  assert (Prim2SF (market_cap / GRADUATION_MCAP * 100)%float = S754_nan) as Hr.
  { rewrite FloatAxioms.mul_spec, FloatAxioms.div_spec, E. reflexivity. }
  unfold Py.min in H.
  assert ((100 <? market_cap / GRADUATION_MCAP * 100)%float = false) as Hlt.
  { rewrite FloatAxioms.ltb_spec, Hr. reflexivity. }
  rewrite Hlt in H. apply is_nan_number in H. rewrite Hr in H. destruct H.
Qed.

(** What a message does to the monitor. *)
Lemma process_ignored now self msg :
  ignored msg -> _process_websocket_message now self msg = self.
Proof.
  unfold _process_websocket_message, ignored. intros H.
  case_bool_decide as Htx; [|reflexivity].
  destruct H as [[Hb Hs]|[Hm|[Hm|[[e He]|[e He]]]]].
  - rewrite !elem_of_cons, elem_of_nil in Htx. tauto.
  - now rewrite Hm.
  - now rewrite Hm.
  - rewrite He. destruct (msg_mint msg) as [[|c mint]|]; reflexivity.
  - rewrite He. destruct (msg_mint msg) as [[|c mint]|]; try reflexivity.
    destruct (marketCapSol msg) as [[cap|e']|]; reflexivity.
Qed.

Lemma process_trade now self msg mint cap sol :
  carries_trade msg mint cap sol ->
  _process_websocket_message now self msg
  = {| session := session self;
       running := running self;
       token_cache := token_cache self;
       cache_ttl := cache_ttl self;
       live_tokens :=
         <[mint := live_entry now msg mint cap sol]> (live_tokens self) |}.
Proof.
  unfold _process_websocket_message, carries_trade.
  intros (Htx & Hm & Hne & Hcap & Hsol).
  rewrite bool_decide_eq_true_2
    by (rewrite !elem_of_cons; destruct Htx as [-> | ->]; auto).
  rewrite Hm, Hcap, Hsol. destruct mint; [congruence|reflexivity].
Qed.

Lemma message_classified msg :
  ignored msg \/ exists mint cap sol, carries_trade msg mint cap sol.
Proof.
  unfold ignored, carries_trade.
  destruct (decide (txType msg = Some "buy" \/ txType msg = Some "sell"))
    as [Htx|Htx]; [|left; left; tauto].
  destruct (msg_mint msg) as [mint|] eqn:Hm; [|auto].
  destruct (decide (mint = EmptyString)) as [->|Hne]; [auto|].
  destruct (marketCapSol msg) as [[cap|e]|] eqn:Hcap;
    [|left; do 3 right; left; eauto|];
    (destruct (vSolInBondingCurve msg) as [[sol|e]|] eqn:Hsol;
     [|left; do 4 right; eauto|]);
    right; eexists mint, _, _; repeat split; auto.
Qed.

Lemma process_frame now self msg :
  session (_process_websocket_message now self msg) = session self
  /\ token_cache (_process_websocket_message now self msg) = token_cache self
  /\ cache_ttl (_process_websocket_message now self msg) = cache_ttl self
  /\ forall token_mint,
      msg_mint msg <> Some token_mint ->
      live_tokens (_process_websocket_message now self msg) !! token_mint
      = live_tokens self !! token_mint.
Proof.
  destruct (message_classified msg) as [H|(mint & cap & sol & H)].
  - rewrite (process_ignored now self msg H). auto.
  - rewrite (process_trade now self msg mint cap sol H). simpl.
    repeat split. intros token_mint Hne. apply lookup_insert_ne.
    destruct H as (_ & Hm & _). congruence.
Qed.

Lemma process_ignored_or_other now self msg token_mint :
  msg_mint msg <> Some token_mint \/ ignored msg ->
  live_tokens (_process_websocket_message now self msg) !! token_mint
  = live_tokens self !! token_mint.
Proof.
  intros [H|H].
  - now apply process_frame.
  - now rewrite process_ignored.
Qed.

Section WithKey.
Variable HELIUS_API_KEY : string.

(** The Pump.fun tier reads the session of the monitor and nothing else. *)
Lemma api_reads_session w m1 m2 token_mint :
  session m1 = session m2 ->
  _get_from_pumpfun_api w m1 token_mint = _get_from_pumpfun_api w m2 token_mint.
Proof. unfold _get_from_pumpfun_api. now intros ->. Qed.

(** The failure modes are all the ways the Pump.fun tier returns [None]. *)
Lemma api_absent_failure w self token_mint :
  _get_from_pumpfun_api w self token_mint = Return None ->
  api_failure self (http_get w (coin_url token_mint)).
Proof.
  unfold _get_from_pumpfun_api, coin_url.
  destruct (session self) eqn:Hs; [|intros _; now apply no_session].
  cbn [mbind mret result_bind result_ret try_except].
  destruct (http_get w _) as [resp|e]; [|intros _; apply request_raises].
  cbn [mbind mret result_bind result_ret try_except].
  destruct (Z.eqb_spec (status resp) 200) as [Hst|Hst];
    [|intros _; now apply bad_status].
  cbn [negb]. destruct (json resp) as [[| |c]|e] eqn:Hj;
    cbn [mbind mret result_bind result_ret try_except].
  - intros _. now apply json_falsy.
  - intros _. now apply json_not_object.
  - destruct (usd_market_cap c) as [[mc|e]|] eqn:Hmc;
      cbn [mbind mret result_bind result_ret try_except get_conv].
    + destruct (reply_count c) as [[h|e]|] eqn:Hrc;
        cbn [mbind mret result_bind result_ret try_except get_conv];
        try discriminate.
      intros _. now apply (bad_reply_count self resp c e).
    + intros _. now apply (bad_market_cap self resp c e).
    + destruct (reply_count c) as [[h|e]|] eqn:Hrc;
        cbn [mbind mret result_bind result_ret try_except get_conv];
        try discriminate.
      intros _. now apply (bad_reply_count self resp c e).
  - intros _. now apply (json_raises self resp e).
Qed.


(** Monitors that agree at a token give its lookup the same answer and
    agree at the token afterwards. *)
Lemma lookup_agree w m1 m2 token_mint :
  agree_at token_mint m1 m2 ->
  (get_curve_progress HELIUS_API_KEY w m1 token_mint).1.1
  = (get_curve_progress HELIUS_API_KEY w m2 token_mint).1.1
  /\ (get_curve_progress HELIUS_API_KEY w m1 token_mint).2
     = (get_curve_progress HELIUS_API_KEY w m2 token_mint).2
  /\ agree_at token_mint
       (get_curve_progress HELIUS_API_KEY w m1 token_mint).1.2
       (get_curve_progress HELIUS_API_KEY w m2 token_mint).1.2.
Proof.
  intros (Hl & Hc & Hs & Ht).
  unfold get_curve_progress, get_curve_progress_try, agree_at.
  rewrite Hl, Hc, Ht, (api_reads_session w m1 m2 token_mint Hs).
  destruct (live_tokens m2 !! token_mint) as [live|] eqn:El;
    [destruct (now_live w - ld_last_updated live <? 60)%float|];
    try (destruct (token_cache m2 !! token_mint) as [cached|] eqn:Ec;
         [destruct (now_cache w - timestamp cached <? cache_ttl m2)%float|]);
    try (destruct (_get_from_pumpfun_api w m2 token_mint) as [[snapshot|]|e]);
    simpl; rewrite ?lookup_insert_eq; repeat split; congruence.
Qed.


End WithKey.
End ResolverMore.

(** ** The feed and the resolver: further properties *)

Module ResolverExtras.
Import PumpBondingMonitor EarlySignalsMonitor Facts Samples Runs MoreSamples.
Import FloatFacts ResolverFacts ScorerFacts ResolverMore.

(** X1.  A message of the feed either is ignored and leaves the monitor
    exactly as it was (another type, no mint, a number that does not
    convert), or carries a trade and replaces the live entry of its mint,
    touching nothing else. *)
Theorem message_writes_one_live_entry now self msg :
  (ignored msg /\ _process_websocket_message now self msg = self)
  \/ (exists mint cap sol,
        carries_trade msg mint cap sol
        /\ live_tokens (_process_websocket_message now self msg)
           = <[mint := live_entry now msg mint cap sol]> (live_tokens self)
        /\ token_cache (_process_websocket_message now self msg)
           = token_cache self
        /\ session (_process_websocket_message now self msg) = session self
        /\ cache_ttl (_process_websocket_message now self msg) = cache_ttl self
        /\ PumpBondingMonitor.running (_process_websocket_message now self msg)
           = PumpBondingMonitor.running self).
Proof.
  destruct (message_classified msg) as [H|(mint & cap & sol & H)].
  - left. split; [exact H|]. now apply process_ignored.
  - right. exists mint, cap, sol. split; [exact H|].
    rewrite (process_trade now self msg mint cap sol H). repeat split.
Qed.

(** X2.  Insert then look up: after a trade message for a mint, a lookup
    of that mint less than 60 seconds later is served from the live tier,
    with the market cap of the message times 200 and its SOL amount. *)
Theorem trade_then_fresh_lookup key w now self msg mint cap sol :
  carries_trade msg mint cap sol ->
  (now_live w - now <? 60)%float = true ->
  let self' := _process_websocket_message now self msg in
  get_curve_progress key w self' mint
    = (Return (Some (live_snapshot (live_entry now msg mint cap sol))),
       self', [LiveTier])
  /\ market_cap_usd (live_snapshot (live_entry now msg mint cap sol))
     = (cap * 200)%float
  /\ sol_raised (live_snapshot (live_entry now msg mint cap sol)) = sol.
Proof.
  intros Htrade Hage self'. split; [|split; reflexivity].
  subst self'. rewrite (process_trade now self msg mint cap sol Htrade).
  unfold get_curve_progress, get_curve_progress_try. simpl.
  rewrite lookup_insert_eq. simpl. now rewrite Hage.
Qed.

Lemma trade_then_fresh_lookup_witness :
  let self' := _process_websocket_message 990 unfed (buy_of "MINT" 51.75) in
  get_curve_progress no_key offline self' "MINT"
    = (Return (Some (live_snapshot
                       (live_entry 990 (buy_of "MINT" 51.75) "MINT" 51.75 30))),
       self', [LiveTier])
  /\ market_cap_usd
       (live_snapshot (live_entry 990 (buy_of "MINT" 51.75) "MINT" 51.75 30))
     = (51.75 * 200)%float
  /\ sol_raised
       (live_snapshot (live_entry 990 (buy_of "MINT" 51.75) "MINT" 51.75 30))
     = 30%float.
Proof.
  apply (trade_then_fresh_lookup no_key offline 990 unfed (buy_of "MINT" 51.75)
           "MINT" 51.75 30).
  - repeat split; auto; discriminate.
  - vm_compute. reflexivity.
Defined.

(** X3.  A message never changes the answer to a lookup of a token it does
    not name: the value returned and the tiers consulted are the same
    before and after it. *)
Theorem message_leaves_other_lookups key w now self msg token_mint :
  msg_mint msg <> Some token_mint ->
  (get_curve_progress key w (_process_websocket_message now self msg)
     token_mint).1.1
  = (get_curve_progress key w self token_mint).1.1
  /\ (get_curve_progress key w (_process_websocket_message now self msg)
        token_mint).2
     = (get_curve_progress key w self token_mint).2.
Proof.
  intros Hne.
  destruct (process_frame now self msg) as (Hs & Hc & Ht & Hl).
  destruct (lookup_agree key w (_process_websocket_message now self msg) self
              token_mint) as (Hv & Htiers & _); [|auto].
  unfold agree_at. rewrite Hs, Hc, Ht, (Hl token_mint Hne). auto.
Qed.

Lemma message_leaves_other_lookups_witness :
  (get_curve_progress no_key offline
     (_process_websocket_message 999 (fed 10350) (buy_of "OTHER" 400)) "MINT").1.1
  = (get_curve_progress no_key offline (fed 10350) "MINT").1.1
  /\ (get_curve_progress no_key offline
        (_process_websocket_message 999 (fed 10350) (buy_of "OTHER" 400)) "MINT").2
     = (get_curve_progress no_key offline (fed 10350) "MINT").2.
Proof.
  apply (message_leaves_other_lookups no_key offline 999 (fed 10350)
           (buy_of "OTHER" 400) "MINT").
  discriminate.
Defined.

(** X4.  The latest trade wins: after the listener processed a sequence
    of messages, the live entry of a mint is the one of the last message
    that carried a trade for it, whatever came before and whatever ignored
    messages or trades of other mints came after. *)
Theorem latest_trade_wins earlier now msg later monitor mint cap sol :
  carries_trade msg mint cap sol ->
  Forall (fun trade => msg_mint trade.2 <> Some mint \/ ignored trade.2) later ->
  live_tokens (fed_with (earlier ++ (now, msg) :: later) monitor) !! mint
  = Some (live_entry now msg mint cap sol).
Proof.
  intros Htrade Hlater. unfold fed_with. rewrite foldl_app. simpl.
  set (before := foldl _ monitor earlier).
  assert (live_tokens (_process_websocket_message now before msg) !! mint
          = Some (live_entry now msg mint cap sol)) as Hnow.
  { rewrite (process_trade now before msg mint cap sol Htrade). simpl.
    apply lookup_insert_eq. }
  revert Hnow. generalize (_process_websocket_message now before msg).
  induction Hlater as [|[now' msg'] later Hhead _ IH]; intros state Hstate;
    simpl; [exact Hstate|].
  apply IH. now rewrite (process_ignored_or_other now' state msg' mint Hhead).
Qed.

Lemma latest_trade_wins_witness :
  live_tokens
    (fed_with ([(980%float, buy_of "MINT" 10)]
               ++ (990%float, buy_of "MINT" 51.75)
               :: [(991%float, subscribed); (992%float, garbled);
                   (993%float, buy_of "OTHER" 400)])
       unfed) !! "MINT"
  = Some (live_entry 990 (buy_of "MINT" 51.75) "MINT" 51.75 30).
Proof.
  apply (latest_trade_wins [(980%float, buy_of "MINT" 10)] 990
           (buy_of "MINT" 51.75)
           [(991%float, subscribed); (992%float, garbled);
            (993%float, buy_of "OTHER" 400)]
           unfed "MINT" 51.75 30).
  - repeat split; auto; discriminate.
  - constructor; [left; discriminate|].
    constructor; [right; do 3 right; left; eexists; reflexivity|].
    constructor; [left; discriminate|]. constructor.
Defined.

(** X5.  Store then look up: a snapshot fetched from the Pump.fun API is
    served from the cache by the next lookup of the token while it is less
    than [cache_ttl] old and no fresh live entry exists; that lookup sends
    no request and returns the same snapshot. *)
Theorem cached_snapshot_is_served key w1 w2 self token_mint snapshot self1 :
  get_curve_progress key w1 self token_mint
    = (Return (Some snapshot), self1, [LiveTier; CacheTier; PumpfunApiTier]) ->
  live_miss w2 self token_mint ->
  (now_cache w2 - now_store w1 <? cache_ttl self)%float = true ->
  get_curve_progress key w2 self1 token_mint
    = (Return (Some snapshot), self1, [LiveTier; CacheTier]).
Proof.
  intros Hfirst Hlive Hage.
  pose proof (get_curve_progress_outcome key w1 self token_mint) as O.
  rewrite Hfirst in O.
  inversion O as [live Hl Hage1|cached Hm Hc Hage1|s Hm Hcm Hapi|Hm Hcm Hapi];
    subst. clear O Hfirst.
  unfold get_curve_progress, get_curve_progress_try. simpl.
  rewrite lookup_insert_eq. simpl. rewrite Hage.
  destruct (live_tokens self !! token_mint) as [live|] eqn:Hl; [|reflexivity].
  now rewrite (Hlive live Hl).
Qed.

Lemma cached_snapshot_is_served_witness :
  get_curve_progress no_key offline
    (get_curve_progress no_key (online 10350) unfed "MINT").1.2 "MINT"
  = (Return (Some
       {| completion_percent := 15;
          market_cap_usd := 10350;
          sol_raised := 51.75;
          holder_count := Some 120%Z;
          volume_24h := Some 0%float;
          source := "pumpfun_api";
          token_data := Some {| usd_market_cap := Some (Return 10350%float);
                                reply_count := Some (Return 120%Z) |} |}),
     (get_curve_progress no_key (online 10350) unfed "MINT").1.2,
     [LiveTier; CacheTier]).
Proof.
  apply (cached_snapshot_is_served no_key (online 10350) offline unfed "MINT").
  - vm_compute. reflexivity.
  - intros live E. vm_compute in E. discriminate.
  - vm_compute. reflexivity.
Defined.

(** X6.  A lookup never changes the live entries, the session or the
    cache lifetime, and leaves every cache entry but the one of its token
    as it was; the entry of its token changes only when the Pump.fun tier
    returned the snapshot, and then holds that snapshot with the clock
    reading of the store. *)
Theorem lookup_writes_one_cache_entry key w self token_mint :
  let self' := (get_curve_progress key w self token_mint).1.2 in
  live_tokens self' = live_tokens self
  /\ session self' = session self
  /\ cache_ttl self' = cache_ttl self
  /\ (forall other, other <> token_mint ->
        token_cache self' !! other = token_cache self !! other)
  /\ (token_cache self' !! token_mint = token_cache self !! token_mint
      \/ exists snapshot,
           _get_from_pumpfun_api w self token_mint = Return (Some snapshot)
           /\ (get_curve_progress key w self token_mint).1.1
              = Return (Some snapshot)
           /\ token_cache self' !! token_mint
              = Some {| data := snapshot; timestamp := now_store w |}).
Proof.
  destruct (get_curve_progress_outcome key w self token_mint)
    as [live Hl Hage|cached Hm Hc Hage|snapshot Hm Hcm Hapi|Hm Hcm Hapi];
    simpl; repeat split; auto.
  - intros other Hne. now apply lookup_insert_ne.
  - right. exists snapshot. rewrite lookup_insert_eq. auto.
Qed.

(** X7.  A lookup returns [None] exactly when all three tiers miss: no
    live entry under 60 seconds old, no cache entry under [cache_ttl] old,
    and one of the failure modes of the Pump.fun tier. *)
Theorem absent_iff_every_tier_misses key w self token_mint :
  (get_curve_progress key w self token_mint).1.1 = Return None
  <-> live_miss w self token_mint
      /\ cache_miss w self token_mint
      /\ api_failure self (http_get w (coin_url token_mint)).
Proof.
  destruct (get_curve_progress_outcome key w self token_mint)
    as [live Hl Hage|cached Hm Hc Hage|snapshot Hm Hcm Hapi|Hm Hcm Hapi];
    simpl; split; try discriminate; try (intros _; reflexivity).
  - intros (Hlive & _). specialize (Hlive live Hl). congruence.
  - intros (_ & Hcache & _). specialize (Hcache cached Hc). congruence.
  - intros (_ & _ & Hfail).
    apply (api_failure_absent w self token_mint) in Hfail. congruence.
  - intros _. repeat split; auto. now apply api_absent_failure.
Qed.

(** X8.  The Helius tier adds nothing: a lookup does the same whatever the
    key is, and when neither the live tier nor the cache has a usable entry
    it returns just what the Pump.fun tier returned. *)
Theorem helius_tier_adds_nothing key w self token_mint :
  get_curve_progress key w self token_mint
  = get_curve_progress EmptyString w self token_mint
  /\ (live_miss w self token_mint ->
      cache_miss w self token_mint ->
      (get_curve_progress key w self token_mint).1.1
      = _get_from_pumpfun_api w self token_mint).
Proof.
  split.
  - unfold get_curve_progress, get_curve_progress_try.
    now rewrite !_get_from_helius_fallback_absent.
  - intros Hlive Hcache.
    destruct (get_curve_progress_outcome key w self token_mint)
      as [live Hl Hage|cached Hm Hc Hage|snapshot Hm Hcm Hapi|Hm Hcm Hapi];
      simpl; try congruence.
    + specialize (Hlive live Hl). congruence.
    + specialize (Hcache cached Hc). congruence.
Qed.

Lemma helius_tier_adds_nothing_witness :
  get_curve_progress "helius-key" (online 10350) unfed "MINT"
  = get_curve_progress EmptyString (online 10350) unfed "MINT"
  /\ (get_curve_progress "helius-key" (online 10350) unfed "MINT").1.1
     = _get_from_pumpfun_api (online 10350) unfed "MINT".
Proof.
  destruct (helius_tier_adds_nothing "helius-key" (online 10350) unfed "MINT")
    as [Hsame Hvalue].
  split; [exact Hsame|]. apply Hvalue.
  - intros live E. vm_compute in E. discriminate.
  - intros cached E. vm_compute in E. discriminate.
Defined.

(** X9.  No snapshot of the resolver earns the volume bonus: both tiers
    that build snapshots set [volume_24h] to 0.  So a score computed from
    a resolved snapshot is at most 190, not 205. *)
Theorem resolved_snapshot_scores_at_most_190
    key w self token_mint snapshot monitor' tiers :
  cache_wf self ->
  get_curve_progress key w self token_mint
    = (Return (Some snapshot), monitor', tiers) ->
  volume_24h snapshot = Some 0%float
  /\ forall token bundle,
      (_calculate_early_conviction token bundle snapshot <= 190)%Z.
Proof.
  intros Hwf Hget.
  assert (volume_24h snapshot = Some 0%float) as Hvol.
  { pose proof (get_curve_progress_outcome key w self token_mint) as O.
    rewrite Hget in O.
    inversion O as [live Hl Hage|cached Hm Hc Hage|s Hm Hcm Hapi|Hm Hcm Hapi];
      subst.
    - reflexivity.
    - now destruct (Hwf token_mint cached Hc) as (_ & _ & Hv).
    - now destruct (_get_from_pumpfun_api_snapshot w self token_mint snapshot
                      Hapi) as (_ & _ & Hv). }
  split; [exact Hvol|]. intros token bundle.
  rewrite score_factors, Hvol. simpl. change (volume_points 0) with 0%Z.
  unfold signal_points.
  pose proof (curve_points_range (completion_percent snapshot)).
  pose proof (smart_money_points_range (len_get (smart_money bundle))).
  pose proof (kol_points_range (len_get (kols bundle))).
  pose proof (social_points_range
                (len_get (telegram bundle) + len_get (twitter bundle))).
  pose proof (convergence_points_range (signal_count bundle)).
  pose proof (holder_points_range (default 0%Z (holder_count snapshot))).
  lia.
Qed.

Lemma resolved_snapshot_scores_at_most_190_witness :
  volume_24h (live_snapshot (trade 10350 990)) = Some 0%float
  /\ forall token bundle,
      (_calculate_early_conviction token bundle (live_snapshot (trade 10350 990))
       <= 190)%Z.
Proof.
  apply (resolved_snapshot_scores_at_most_190 no_key offline (fed 10350) "MINT"
           (live_snapshot (trade 10350 990)) (fed 10350) [LiveTier]).
  - intros token_mint entry E. vm_compute in E. discriminate.
  - vm_compute. reflexivity.
Defined.

(** X10.  Every row of the range scan belongs to a live entry, repeats its
    market cap and symbol with the completion the lookup would compute,
    is not older than [max_age], lies within the requested bounds, and is
    a number: a live entry whose market cap is [nan] is never listed. *)
Theorem scan_row_is_live_and_in_range
    current_time self min_pct max_pct max_age token_mint row :
  get_cached_tokens_by_curve_range current_time self min_pct max_pct max_age
    !! token_mint = Some row ->
  exists live,
    live_tokens self !! token_mint = Some live
    /\ row = range_row_of live
    /\ r_completion_percent row = completion_percent (live_snapshot live)
    /\ (max_age <? current_time - ld_last_updated live)%float = false
    /\ (min_pct <=? r_completion_percent row)%float = true
    /\ (r_completion_percent row <=? max_pct)%float = true
    /\ is_nan (r_completion_percent row) = false
    /\ is_nan (r_market_cap_usd row) = false.
Proof.
  unfold get_cached_tokens_by_curve_range. rewrite lookup_omap.
  destruct (live_tokens self !! token_mint) as [live|]; simpl; [|discriminate].
  destruct (max_age <? _)%float eqn:Hage; [discriminate|].
  destruct (min_pct <=? _)%float eqn:Hmin; [|discriminate].
  destruct (_ <=? max_pct)%float eqn:Hmax; [|discriminate].
  intros [= <-]. exists live. repeat split; auto.
  - now destruct (leb_true_number _ _ Hmax).
  - apply clamp_number_inv. now destruct (leb_true_number _ _ Hmax).
Qed.

Lemma scan_row_is_live_and_in_range_witness :
  exists live,
    live_tokens (fed 10350) !! "MINT" = Some live
    /\ range_row_of (trade 10350 990) = range_row_of live
    /\ r_completion_percent (range_row_of (trade 10350 990))
       = completion_percent (live_snapshot live)
    /\ (300 <? 1000 - ld_last_updated live)%float = false
    /\ (0 <=? r_completion_percent (range_row_of (trade 10350 990)))%float = true
    /\ (r_completion_percent (range_row_of (trade 10350 990)) <=? 70)%float = true
    /\ is_nan (r_completion_percent (range_row_of (trade 10350 990))) = false
    /\ is_nan (r_market_cap_usd (range_row_of (trade 10350 990))) = false.
Proof.
  apply (scan_row_is_live_and_in_range 1000 (fed 10350) 0 70 300 "MINT"
           (range_row_of (trade 10350 990))).
  vm_compute. reflexivity.
Defined.

(** X11.  The scan and the lookup agree: a token the lookup would serve
    from the live tier (entry under 60 seconds old) is listed by a scan with
    [max_age] 60 whenever its completion lies within the requested bounds,
    with the completion and the market cap of the lookup's snapshot. *)
Theorem fresh_live_token_is_scanned
    current_time self min_pct max_pct token_mint live :
  live_tokens self !! token_mint = Some live ->
  (current_time - ld_last_updated live <? 60)%float = true ->
  (min_pct <=? completion_percent (live_snapshot live))%float = true ->
  (completion_percent (live_snapshot live) <=? max_pct)%float = true ->
  exists row,
    get_cached_tokens_by_curve_range current_time self min_pct max_pct 60
      !! token_mint = Some row
    /\ r_completion_percent row = completion_percent (live_snapshot live)
    /\ r_market_cap_usd row = market_cap_usd (live_snapshot live).
Proof.
  intros Hlive Hage Hmin Hmax. exists (range_row_of live).
  split; [|split; reflexivity].
  unfold get_cached_tokens_by_curve_range. rewrite lookup_omap, Hlive. simpl.
  rewrite (ltb_asym _ _ Hage). simpl in Hmin, Hmax. now rewrite Hmin, Hmax.
Qed.

Lemma fresh_live_token_is_scanned_witness :
  exists row,
    get_cached_tokens_by_curve_range 1000 (fed 10350) 0 70 60 !! "MINT" = Some row
    /\ r_completion_percent row
       = completion_percent (live_snapshot (trade 10350 990))
    /\ r_market_cap_usd row = market_cap_usd (live_snapshot (trade 10350 990)).
Proof.
  apply (fresh_live_token_is_scanned 1000 (fed 10350) 0 70 "MINT"
           (trade 10350 990)); vm_compute; reflexivity.
Defined.

End ResolverExtras.

(** ** The coordinator: further lemmas *)

Module CoordinatorMore.
Import PumpBondingMonitor EarlySignalsMonitor Facts Runs.
Import ResolverFacts CoordinatorFacts ResolverMore.

Lemma alert_count_app token_mint log1 log2 :
  alert_count token_mint (log1 ++ log2)
  = alert_count token_mint log1 + alert_count token_mint log2.
Proof.
  induction log1 as [|e log1 IH]; simpl; [reflexivity|].
  destruct e; simpl; rewrite IH; lia.
Qed.

Lemma alert_count_positive token_mint log :
  0 < alert_count token_mint log ->
  exists a, Callback a ∈ log /\ alert_token a = token_mint.
Proof.
  induction log as [|e log IH]; simpl; [lia|].
  destruct e as [| | | | | | |a| | |]; simpl;
    try (intros H; destruct (IH H) as (a' & Hin & Ht); exists a'; split;
         [now apply list_elem_of_further|exact Ht]).
  case_bool_decide as Ha.
  - intros _. exists a. split; [apply list_elem_of_here|exact Ha].
  - intros H. destruct (IH H) as (a' & Hin & Ht). exists a'. split;
      [now apply list_elem_of_further|exact Ht].
Qed.

(** What the loop logs between two iterations: nothing, or the error that
    ended the iteration. *)
Lemma between_passes_no_alert extra token_mint :
  extra = [] \/ (exists e, extra = [LoopError e]) ->
  alert_count token_mint extra = 0
  /\ (forall t, Evaluating t ∉ extra)
  /\ (forall a, Callback a ∉ extra).
Proof.
  intros [->|[e ->]]; simpl; repeat split; intros x;
    rewrite ?elem_of_cons, elem_of_nil; intuition discriminate.
Qed.

Section WithKey.
Variable HELIUS_API_KEY : string.

Local Abbreviation evaluate := (_evaluate_early_token HELIUS_API_KEY).
Local Abbreviation lookup := (get_curve_progress HELIUS_API_KEY).
Local Abbreviation run_pass := (evaluate_hot_tokens HELIUS_API_KEY).
Local Abbreviation run_loop := (_aggregation_loop HELIUS_API_KEY).

(** The callbacks of an evaluation: none for another token, one at most
    for its own, and only for a token it marks processed. *)
Lemma evaluation_callback w self token_mint bundle out a :
  evaluation HELIUS_API_KEY w self token_mint bundle out ->
  Callback a ∈ out.2 ->
  token_mint ∈ processed_tokens out.1.2
  /\ exists snapshot monitor' tiers,
      lookup (curve_env w) (bonding_monitor self) token_mint
        = (Return (Some snapshot), monitor', tiers)
      /\ a = alert_of token_mint bundle snapshot
      /\ (70 <? completion_percent snapshot)%float = false
      /\ (MIN_EARLY_CONVICTION
          <= _calculate_early_conviction token_mint bundle snapshot)%Z.
Proof.
  intros E. evaluation_cases E; simpl; rewrite !elem_of_cons, elem_of_nil;
    intros H; repeat (destruct H as [H|H]; try discriminate); try contradiction;
    injection H as ->;
    (split; [apply elem_of_union_l; now apply elem_of_singleton|]);
    exists s, m', tiers; auto.
Qed.

Lemma evaluation_alert_count w self token_mint bundle out :
  evaluation HELIUS_API_KEY w self token_mint bundle out ->
  alert_count token_mint out.2 <= 1
  /\ (0 < alert_count token_mint out.2 -> token_mint ∈ processed_tokens out.1.2)
  /\ forall other, other <> token_mint -> alert_count other out.2 = 0.
Proof.
  intros E. evaluation_cases E; simpl; repeat split; try lia;
    try (intros _; apply elem_of_union_l; now apply elem_of_singleton);
    try (case_bool_decide; lia);
    (intros other Hne; case_bool_decide; [congruence|reflexivity]).
Qed.

(** Induction over the hot tokens of a pass: the pass stops (at the end of
    the list, or because [has_seen] raised), or a token is skipped, or it
    is evaluated and the pass goes on, or stops when the evaluation raised,
    from the coordinator the evaluation leaves. *)
Lemma pass_induction w has_seen
    (P : EarlySignalsMonitor -> list (string * signal_data) ->
         result unit * EarlySignalsMonitor * list event -> Prop) :
  (forall self hot_tokens r, P self hot_tokens (r, self, [])) ->
  (forall self token_mint bundle rest out,
      token_mint ∈ processed_tokens self \/ has_seen token_mint = Return true ->
      P self rest out -> P self ((token_mint, bundle) :: rest) out) ->
  (forall self token_mint bundle rest o1 o2,
      token_mint ∉ processed_tokens self ->
      has_seen token_mint = Return false ->
      evaluation HELIUS_API_KEY (w token_mint) self token_mint bundle o1 ->
      P o1.1.2 rest o2 ->
      P self ((token_mint, bundle) :: rest) (o2.1.1, o2.1.2, o1.2 ++ o2.2)) ->
  forall hot_tokens self, P self hot_tokens (run_pass w has_seen hot_tokens self).
Proof.
  intros Hstop Hskip Heval.
  induction hot_tokens as [|[token_mint bundle] rest IH]; intros self; simpl.
  { apply Hstop. }
  case_bool_decide as Hp; [apply Hskip; auto|].
  destruct (has_seen token_mint) as [[]|e] eqn:Hs;
    [apply Hskip; auto| |apply Hstop].
  pose proof (evaluate_outcome HELIUS_API_KEY (w token_mint) self token_mint
                bundle) as E.
  destruct (evaluate (w token_mint) self token_mint bundle) as [[r1 self1] log1].
  destruct r1 as [u|e].
  - specialize (IH self1).
    destruct (run_pass w has_seen rest self1) as [[r2 self2] log2].
    exact (Heval self token_mint bundle rest (Return u, self1, log1)
             (r2, self2, log2) Hp Hs E IH).
  - pose proof (Heval self token_mint bundle rest (Raise e, self1, log1)
                  (Raise e, self1, []) Hp Hs E (Hstop self1 rest (Raise e)))
      as H.
    simpl in H. now rewrite app_nil_r in H.
Qed.

(** Induction over the iterations of the loop: the loop stops, or it makes
    an iteration, over the hot tokens it got (none when [get_hot_tokens]
    raised), logs the error that ended the iteration, if any, and goes
    on. *)
Lemma loop_induction
    (P : EarlySignalsMonitor -> list pass ->
         result unit * EarlySignalsMonitor * list event -> Prop) :
  (forall self passes r, P self passes (r, self, [])) ->
  (forall self p rest hot_tokens extra o1 o2,
      hot_tokens = [] \/ pass_hot_tokens p = Return hot_tokens ->
      extra = [] \/ (exists e, extra = [LoopError e]) ->
      o1 = run_pass (pass_env p) (pass_has_seen p) hot_tokens
             (feed (pass_trades p) self) ->
      P o1.1.2 rest o2 ->
      P self (p :: rest) (o2.1.1, o2.1.2, o1.2 ++ extra ++ o2.2)) ->
  forall passes self, P self passes (run_loop passes self).
Proof.
  intros Hstop Hcons. induction passes as [|p rest IH]; intros self; simpl.
  { apply Hstop. }
  destruct (EarlySignalsMonitor.running self); [|apply Hstop].
  destruct (pass_hot_tokens p) as [hot_tokens|e] eqn:Hhot.
  - pose proof (fun extra o2 Hextra =>
                  Hcons self p rest hot_tokens extra _ o2 (or_intror Hhot)
                    Hextra eq_refl) as Hstep.
    destruct (run_pass _ _ hot_tokens (feed (pass_trades p) self))
      as [[r1 self1] log1].
    specialize (IH self1). simpl in Hstep.
    destruct r1 as [u|e]; [|destruct (pass_logger_error p e) as [u|e']].
    + destruct (run_loop rest self1) as [[r2 self2] log2].
      exact (Hstep [] (r2, self2, log2) (or_introl eq_refl) IH).
    + destruct (run_loop rest self1) as [[r2 self2] log2].
      exact (Hstep [LoopError e] (r2, self2, log2)
               (or_intror (ex_intro _ e eq_refl)) IH).
    + pose proof (Hstep [] (Raise e', self1, []) (or_introl eq_refl)
                    (Hstop self1 rest (Raise e'))) as H.
      simpl in H. now rewrite app_nil_r in H.
  - pose proof (fun extra o2 Hextra =>
                  Hcons self p rest [] extra _ o2 (or_introl eq_refl)
                    Hextra eq_refl) as Hstep.
    simpl in Hstep. specialize (IH (feed (pass_trades p) self)).
    destruct (pass_logger_error p e) as [u|e'].
    + destruct (run_loop rest (feed (pass_trades p) self))
        as [[r2 self2] log2].
      exact (Hstep [LoopError e] (r2, self2, log2)
               (or_intror (ex_intro _ e eq_refl)) IH).
    + exact (Hstep [] (Raise e', feed (pass_trades p) self, [])
               (or_introl eq_refl)
               (Hstop (feed (pass_trades p) self) rest (Raise e'))).
Qed.

End WithKey.
End CoordinatorMore.

(** ** Passes and loops: what every run keeps *)

Module LoopFacts.
Import PumpBondingMonitor EarlySignalsMonitor Facts Runs.
Import ResolverFacts CoordinatorFacts ResolverMore CoordinatorMore.

Section WithKey.
Variable HELIUS_API_KEY : string.

Local Abbreviation run_pass := (evaluate_hot_tokens HELIUS_API_KEY).
Local Abbreviation run_loop := (_aggregation_loop HELIUS_API_KEY).

Lemma pass_processed w has_seen hot_tokens self :
  pass_grows self hot_tokens (run_pass w has_seen hot_tokens self).
Proof.
  revert hot_tokens self. apply pass_induction; unfold pass_grows.
  - intros self hot_tokens r. simpl. repeat split; auto.
  - intros self token_mint bundle rest out _ (Hsub & Hnew & Hcb & Hrun).
    repeat split; auto. intros other Hin. rewrite tokens_of_cons, elem_of_cons.
    destruct (Hnew other Hin); auto.
  - intros self token_mint bundle rest o1 o2 _ _ E (Hsub & Hnew & Hcb & Hrun).
    destruct (evaluation_frame _ _ _ _ _ _ E) as (Hcb1 & Hrun1 & _ & Hsub1 & Hnew1).
    cbn [fst snd].
    repeat split;
      [transitivity (processed_tokens o1.1.2); assumption| |congruence|congruence].
    intros other Hin. rewrite tokens_of_cons, elem_of_cons.
    destruct (Hnew other Hin) as [H|H]; [|auto].
    destruct (Hnew1 other H); auto.
Qed.

Lemma pass_alert_counts w has_seen hot_tokens self :
  pass_counts self hot_tokens (run_pass w has_seen hot_tokens self).
Proof.
  revert hot_tokens self. apply pass_induction; unfold pass_counts.
  - intros self hot_tokens r. simpl. split; [done|]. intros token_mint.
    repeat split; auto; lia.
  - intros self token_mint bundle rest out _ (Hsub & IH).
    split; [done|]. intros other. destruct (IH other) as (H1 & H2 & H3 & H4).
    repeat split; auto. rewrite tokens_of_cons, not_elem_of_cons. tauto.
  - intros self token_mint bundle rest o1 o2 Hnew Hseen E (Hsub & IH).
    destruct (evaluation_alert_count _ _ _ _ _ _ E) as (Hle & Hpos & Hother).
    destruct (evaluation_frame _ _ _ _ _ _ E) as (_ & _ & _ & Hsub1 & _).
    cbn [fst snd].
    split; [transitivity (processed_tokens o1.1.2); assumption|]. intros other.
    destruct (IH other) as (H1 & H2 & H3 & H4).
    rewrite alert_count_app, tokens_of_cons, not_elem_of_cons.
    destruct (decide (other = token_mint)) as [->|Hne].
    + split; [tauto|].
      destruct (decide (0 < alert_count token_mint o1.2)) as [Hc|Hc].
      * specialize (H1 (Hpos Hc)). split; [lia|]. split; [|tauto].
        intros _. apply Hsub, Hpos, Hc.
      * split; [lia|]. split; [|tauto]. intros Hc2. apply H3. lia.
    + rewrite (Hother other Hne). simpl. split; [|split; [exact H2|split]].
      * intros Hin. apply H1. now apply Hsub1.
      * exact H3.
      * intros [_ Hnot]. now apply H4.
Qed.

Lemma pass_selection w has_seen hot_tokens self :
  pass_selects has_seen self hot_tokens (run_pass w has_seen hot_tokens self).
Proof.
  revert hot_tokens self. apply pass_induction; unfold pass_selects.
  - intros self hot_tokens r. simpl. split; [done|].
    split; intros ?; rewrite elem_of_nil; tauto.
  - intros self token_mint bundle rest out _ (Hsub & Hev & Hcb).
    split; [done|]. split.
    + intros other Hin. destruct (Hev other Hin) as (H1 & H2 & H3).
      rewrite tokens_of_cons, elem_of_cons. auto.
    + intros a Hin. destruct (Hcb a Hin) as (H1 & H2 & H3 & b & s & H4 & H5).
      repeat split; auto. exists b, s. rewrite elem_of_cons. auto.
  - intros self token_mint bundle rest o1 o2 Hnew Hseen E (Hsub & Hev & Hcb).
    destruct (evaluation_frame _ _ _ _ _ _ E) as (_ & _ & _ & Hsub1 & _).
    cbn [fst snd].
    split; [transitivity (processed_tokens o1.1.2); assumption|]. split.
    + intros other. rewrite elem_of_app, tokens_of_cons, elem_of_cons.
      intros [Hin|Hin].
      * apply (evaluation_log_token _ _ _ _ _ _ _ E) in Hin. subst. auto.
      * destruct (Hev other Hin) as (H1 & H2 & H3). repeat split; auto.
    + intros a. rewrite elem_of_app. intros [Hin|Hin].
      * destruct (evaluation_callback _ _ _ _ _ _ _ E Hin)
          as (Hp & s & m' & tiers & _ & Ha & Hlate & Hscore).
        assert (alert_token a = token_mint) as Htok by (now subst a).
        rewrite Htok. repeat split; auto.
        exists bundle, s. rewrite elem_of_cons. auto.
      * destruct (Hcb a Hin) as (H1 & H2 & H3 & b & s & H4 & H5).
        repeat split; auto. exists b, s. rewrite elem_of_cons. auto.
Qed.

Lemma loop_invariant passes self :
  loop_keeps self passes (run_loop passes self).
Proof.
  revert passes self. apply loop_induction; unfold loop_keeps.
  - intros self passes r. simpl. split; [done|]. do 3 (split; [auto|]).
    split; [intros; repeat split; auto; lia|].
    split; intros ? Hin; now apply elem_of_nil in Hin.
  - intros self p rest hot_tokens extra o1 o2 Hhot Hextra Ho1
      (Hsub & Hcb & Hrun & Hnew & Hcount & Hev & Hal).
    assert (forall token_mint,
               token_mint ∈ tokens_of hot_tokens ->
               pass_hot_tokens p = Return hot_tokens) as Hgot.
    { intros token_mint Hin. destruct Hhot as [->|Hhot]; [|exact Hhot].
      now apply elem_of_nil in Hin. }
    pose proof (pass_processed (pass_env p) (pass_has_seen p)
                  hot_tokens (feed (pass_trades p) self)) as G1.
    pose proof (pass_alert_counts (pass_env p) (pass_has_seen p)
                  hot_tokens (feed (pass_trades p) self)) as G2.
    pose proof (pass_selection (pass_env p) (pass_has_seen p)
                  hot_tokens (feed (pass_trades p) self)) as G3.
    rewrite <- Ho1 in G1, G2, G3. clear Ho1.
    destruct G1 as (Hsub1 & Hnew1 & Hcb1 & Hrun1).
    destruct G2 as (_ & Hcount1). destruct G3 as (_ & Hev1 & Hal1).
    change (processed_tokens (feed (pass_trades p) self))
      with (processed_tokens self) in *.
    change (signal_callback (feed (pass_trades p) self))
      with (signal_callback self) in *.
    change (EarlySignalsMonitor.running (feed (pass_trades p) self))
      with (EarlySignalsMonitor.running self) in *.
    cbn [fst snd].
    split; [transitivity (processed_tokens o1.1.2); assumption|].
    split; [congruence|]. split; [congruence|]. split; [|split; [|split]].
    + intros token_mint Hin.
      destruct (Hnew token_mint Hin) as [H|(q & hot & Hq & Hqhot & H)].
      * destruct (Hnew1 token_mint H) as [H'|H']; [auto|].
        right. exists p, hot_tokens.
        split; [apply list_elem_of_here|]. split; [eauto|exact H'].
      * right. exists q, hot. split; [now apply list_elem_of_further|auto].
    + intros token_mint. rewrite !alert_count_app.
      destruct (between_passes_no_alert extra token_mint Hextra) as (-> & _).
      destruct (Hcount token_mint) as (H1 & H2 & H3).
      destruct (Hcount1 token_mint) as (G1 & G2 & G3 & _).
      split; [|split].
      * intros Hin. rewrite (G1 Hin). apply H1. now apply Hsub1.
      * destruct (decide (0 < alert_count token_mint o1.2)) as [Hc|Hc];
          [rewrite (H1 (G3 Hc))|]; lia.
      * intros Hc.
        destruct (decide (0 < alert_count token_mint o1.2)) as [Hc1|Hc1].
        -- apply Hsub, G3, Hc1.
        -- apply H3. lia.
    + intros token_mint. rewrite !elem_of_app. intros [Hin|[Hin|Hin]].
      * destruct (Hev1 token_mint Hin) as (H1 & H2 & H3).
        split; [exact H1|]. exists p, hot_tokens.
        split; [apply list_elem_of_here|]. split; [eauto|auto].
      * destruct (between_passes_no_alert extra token_mint Hextra)
          as (_ & Hno & _).
        destruct (Hno token_mint Hin).
      * destruct (Hev token_mint Hin) as (H1 & q & hot & Hq & H2).
        split; [intros H; apply H1; now apply Hsub1|].
        exists q, hot. split; [now apply list_elem_of_further|exact H2].
    + intros a. rewrite !elem_of_app. intros [Hin|[Hin|Hin]].
      * destruct (Hal1 a Hin) as (H1 & H2 & H3 & b & s & H4 & H5).
        split; [exact H1|]. split; [now apply Hsub|].
        exists p, hot_tokens, b, s. split; [apply list_elem_of_here|].
        split; [apply (Hgot (alert_token a)); now apply (tokens_of_elem _ b)|].
        auto.
      * destruct (between_passes_no_alert extra (alert_token a) Hextra)
          as (_ & _ & Hno).
        destruct (Hno a Hin).
      * destruct (Hal a Hin) as (H1 & H2 & q & hot & b & s & Hq & H3).
        split; [intros H; apply H1; now apply Hsub1|]. split; [exact H2|].
        exists q, hot, b, s. split; [now apply list_elem_of_further|exact H3].
Qed.

End WithKey.
End LoopFacts.

(** ** The coordinator: what the tokens of one pass do to each other *)

Module PassFacts.
Import PumpBondingMonitor EarlySignalsMonitor Facts Runs.
Import ResolverFacts CoordinatorFacts ResolverMore CoordinatorMore LoopFacts.


Lemma agree_at_sym token_mint m1 m2 :
  agree_at token_mint m1 m2 -> agree_at token_mint m2 m1.
Proof. unfold agree_at. intuition congruence. Qed.


Section WithKey.
Variable HELIUS_API_KEY : string.

Local Abbreviation evaluate := (_evaluate_early_token HELIUS_API_KEY).
Local Abbreviation run_pass := (evaluate_hot_tokens HELIUS_API_KEY).




End WithKey.
End PassFacts.

(** ** The coordinator: further properties *)

Module CoordinatorExtras.
Import PumpBondingMonitor EarlySignalsMonitor Facts Samples Runs MoreSamples.
Import FloatFacts ResolverFacts ScorerFacts CoordinatorFacts.
Import ResolverMore CoordinatorMore LoopFacts PassFacts.

(** X12.  Whatever the iterations of the loop meet, the callback is called
    at most once per token, and never for a token that was already in the
    processed set. *)
Theorem at_most_one_callback_per_token key passes self token_mint :
  alert_count token_mint (_aggregation_loop key passes self).2 <= 1
  /\ (token_mint ∈ processed_tokens self ->
      alert_count token_mint (_aggregation_loop key passes self).2 = 0).
Proof.
  destruct (loop_invariant key passes self) as (_ & _ & _ & _ & Hcount & _).
  destruct (Hcount token_mint) as (Hzero & Hle & _). auto.
Qed.

Lemma at_most_one_callback_per_token_witness :
  alert_count "MINT"
    (_aggregation_loop no_key [two_hot; two_hot; two_hot] (coordinator unfed)).2
  <= 1
  /\ alert_count "MINT"
       (_aggregation_loop no_key [two_hot; two_hot; two_hot]
          (mark_processed (coordinator unfed) "MINT")).2 = 0.
Proof.
  split.
  - apply (at_most_one_callback_per_token no_key [two_hot; two_hot; two_hot]
             (coordinator unfed) "MINT").
  - destruct (at_most_one_callback_per_token no_key [two_hot; two_hot; two_hot]
                (mark_processed (coordinator unfed) "MINT") "MINT")
      as [_ Hzero].
    apply Hzero. simpl. apply elem_of_union_l. now apply elem_of_singleton.
Defined.

(** Three iterations that each find MINT hot with scenario A: one call. *)
Example one_callback_in_three_passes :
  alert_count "MINT"
    (_aggregation_loop no_key [two_hot; two_hot; two_hot] (coordinator unfed)).2
  = 1.
Proof. vm_compute. reflexivity. Qed.

(** X13.  Every call of the callback in a run of the loop is earned: it
    carries [signal_type] "ultra_early", a score of at least 85 computed by
    the scorer from the token's bundle and a snapshot, and a completion that
    is not above 70; its token was hot and unseen in some iteration, was
    not processed at the start and is processed at the end. *)
Theorem every_callback_is_earned key passes self a :
  Callback a ∈ (_aggregation_loop key passes self).2 ->
  signal_type a = "ultra_early"
  /\ (85 <= early_score a)%Z
  /\ (70 <? curve_completion a)%float = false
  /\ (alert_token a ∉ processed_tokens self)
  /\ alert_token a ∈ processed_tokens (_aggregation_loop key passes self).1.2
  /\ exists p hot_tokens snapshot,
      p ∈ passes
      /\ pass_hot_tokens p = Return hot_tokens
      /\ (alert_token a, alert_signal_data a) ∈ hot_tokens
      /\ pass_has_seen p (alert_token a) = Return false
      /\ early_score a
         = _calculate_early_conviction (alert_token a) (alert_signal_data a)
             snapshot
      /\ curve_completion a = completion_percent snapshot.
Proof.
  intros Hin.
  destruct (loop_invariant key passes self) as (_ & _ & _ & _ & _ & _ & Hal).
  destruct (Hal a Hin)
    as (Hnew & Hdone & p & hot & bundle & s & Hp & Hgot & Hseen & Hhot & Ha
        & Hlate & Hscore).
  assert (signal_type a = "ultra_early"
          /\ early_score a
             = _calculate_early_conviction (alert_token a) bundle s
          /\ curve_completion a = completion_percent s
          /\ alert_signal_data a = bundle) as (Hty & Hsc & Hc & Hb)
    by (rewrite Ha; repeat split).
  rewrite Hb, Hsc, Hc. repeat split; auto.
  exists p, hot, s. repeat split; auto.
Qed.

Lemma every_callback_is_earned_witness :
  signal_type alert_a = "ultra_early"
  /\ (85 <= early_score alert_a)%Z
  /\ (70 <? curve_completion alert_a)%float = false
  /\ (alert_token alert_a ∉ processed_tokens (coordinator unfed))
  /\ alert_token alert_a
       ∈ processed_tokens
           (_aggregation_loop no_key [two_hot] (coordinator unfed)).1.2
  /\ exists p hot_tokens snapshot,
      p ∈ [two_hot]
      /\ pass_hot_tokens p = Return hot_tokens
      /\ (alert_token alert_a, alert_signal_data alert_a) ∈ hot_tokens
      /\ pass_has_seen p (alert_token alert_a) = Return false
      /\ early_score alert_a
         = _calculate_early_conviction (alert_token alert_a)
             (alert_signal_data alert_a) snapshot
      /\ curve_completion alert_a = completion_percent snapshot.
Proof.
  apply (every_callback_is_earned no_key [two_hot] (coordinator unfed) alert_a).
  assert ((_aggregation_loop no_key [two_hot] (coordinator unfed)).2
          = [Evaluating "OTHER";
             CurveLookup "OTHER" [LiveTier; CacheTier; PumpfunApiTier; HeliusTier];
             NoCurveData "OTHER";
             Evaluating "MINT"; CurveLookup "MINT" [LiveTier]; InRange "MINT" 15;
             Scored 125; UltraEarly "MINT" 125; Callback alert_a]) as ->
    by (vm_compute; reflexivity).
  do 8 apply list_elem_of_further. apply list_elem_of_here.
Defined.

(** X14.  The loop evaluates a token only in an iteration in which it is
    hot and [has_seen] answers no, and never a token that was in the
    processed set at the start. *)
Theorem evaluated_tokens_are_eligible key passes self token_mint :
  Evaluating token_mint ∈ (_aggregation_loop key passes self).2 ->
  (token_mint ∉ processed_tokens self)
  /\ exists p hot_tokens bundle,
      p ∈ passes
      /\ pass_hot_tokens p = Return hot_tokens
      /\ (token_mint, bundle) ∈ hot_tokens
      /\ pass_has_seen p token_mint = Return false.
Proof.
  intros Hin.
  destruct (loop_invariant key passes self) as (_ & _ & _ & _ & _ & Hev & _).
  destruct (Hev token_mint Hin) as (Hnew & p & hot & Hp & Hgot & Hseen & Hhot).
  split; [exact Hnew|].
  destruct (tokens_of_bundle _ _ Hhot) as [bundle Hb].
  exists p, hot, bundle. repeat split; auto.
Qed.

Lemma evaluated_tokens_are_eligible_witness :
  ("OTHER" ∉ processed_tokens (coordinator unfed))
  /\ exists p hot_tokens bundle,
      p ∈ [two_hot]
      /\ pass_hot_tokens p = Return hot_tokens
      /\ ("OTHER", bundle) ∈ hot_tokens
      /\ pass_has_seen p "OTHER" = Return false.
Proof.
  apply (evaluated_tokens_are_eligible no_key [two_hot] (coordinator unfed) "OTHER").
  assert ((_aggregation_loop no_key [two_hot] (coordinator unfed)).2
          = [Evaluating "OTHER";
             CurveLookup "OTHER" [LiveTier; CacheTier; PumpfunApiTier; HeliusTier];
             NoCurveData "OTHER";
             Evaluating "MINT"; CurveLookup "MINT" [LiveTier]; InRange "MINT" 15;
             Scored 125; UltraEarly "MINT" 125; Callback alert_a]) as ->
    by (vm_compute; reflexivity).
  apply list_elem_of_here.
Defined.

(** X15.  Over any run of the loop the processed set only grows, and only
    by tokens that were hot in some iteration; the loop never changes the
    registered callback. *)
Theorem loop_only_adds_hot_tokens key passes self :
  processed_tokens self ⊆ processed_tokens (_aggregation_loop key passes self).1.2
  /\ (forall token_mint,
        token_mint ∈ processed_tokens (_aggregation_loop key passes self).1.2 ->
        token_mint ∈ processed_tokens self
        \/ exists p hot_tokens bundle,
             p ∈ passes
             /\ pass_hot_tokens p = Return hot_tokens
             /\ (token_mint, bundle) ∈ hot_tokens)
  /\ signal_callback (_aggregation_loop key passes self).1.2
     = signal_callback self.
Proof.
  destruct (loop_invariant key passes self) as (Hsub & Hcb & _ & Hnew & _).
  split; [exact Hsub|]. split; [|exact Hcb].
  intros token_mint Hin.
  destruct (Hnew token_mint Hin) as [H|(p & hot & Hp & Hgot & Hhot)]; [auto|].
  right. destruct (tokens_of_bundle _ _ Hhot) as [bundle Hb]. eauto 6.
Qed.

(** X16.  When the callback raises, the token is already in the processed
    set.  The handler logs the error and the evaluation returns, unless the
    logger cannot format the text of the exception: then the error is not
    logged and the logger's exception leaves the evaluation.  Either way no
    later iteration evaluates the token or calls the callback for it
    again: a failed post is not retried. *)
Theorem failed_callback_is_not_retried
    key w self token_mint bundle snapshot monitor' tiers callback e :
  get_curve_progress key (curve_env w) (bonding_monitor self) token_mint
    = (Return (Some snapshot), monitor', tiers) ->
  (70 <? completion_percent snapshot)%float = false ->
  (85 <= _calculate_early_conviction token_mint bundle snapshot)%Z ->
  signal_callback self = Some callback ->
  callback (alert_of token_mint bundle snapshot) = Raise e ->
  let out := _evaluate_early_token key w self token_mint bundle in
  let called :=
    [Evaluating token_mint; CurveLookup token_mint tiers;
     InRange token_mint (completion_percent snapshot);
     Scored (_calculate_early_conviction token_mint bundle snapshot);
     UltraEarly token_mint
       (_calculate_early_conviction token_mint bundle snapshot);
     Callback (alert_of token_mint bundle snapshot)] in
  (logger_error w e = Return tt ->
   out.1.1 = Return tt /\ out.2 = called ++ [EvaluationError e])
  /\ (forall e', logger_error w e = Raise e' ->
        out.1.1 = Raise e' /\ out.2 = called)
  /\ out.1.2 = mark_processed (with_monitor self monitor') token_mint
  /\ token_mint ∈ processed_tokens out.1.2
  /\ forall passes,
      alert_count token_mint (_aggregation_loop key passes out.1.2).2 = 0
      /\ Evaluating token_mint ∉ (_aggregation_loop key passes out.1.2).2.
Proof.
  intros Hget Hlate Hscore Hcb Hcall out called.
  assert (out =
          match logger_error w e with
          | Return _ =>
              (Return tt, mark_processed (with_monitor self monitor') token_mint,
               called ++ [EvaluationError e])
          | Raise e' =>
              (Raise e', mark_processed (with_monitor self monitor') token_mint,
               called)
          end) as Hout.
  { subst out called. unfold _evaluate_early_token. rewrite Hget.
    cbv beta iota zeta. rewrite Hlate.
    change 85%Z with MIN_EARLY_CONVICTION in Hscore.
    apply Z.leb_le in Hscore. rewrite Hscore.
    cbn [signal_callback mark_processed]. rewrite Hcb.
    unfold alert_of in *. rewrite Hcall. unfold with_monitor. rewrite Hcb.
    now destruct (logger_error w e). }
  assert (out.1.2 = mark_processed (with_monitor self monitor') token_mint)
    as Hstate by (rewrite Hout; now destruct (logger_error w e)).
  assert (token_mint ∈ processed_tokens out.1.2) as Hin
    by (rewrite Hstate; apply elem_of_union_l; now apply elem_of_singleton).
  split; [intros Hlog; rewrite Hout, Hlog; split; reflexivity|].
  split; [intros e' Hlog; rewrite Hout, Hlog; split; reflexivity|].
  split; [exact Hstate|]. split; [exact Hin|]. intros passes. split.
  - destruct (loop_invariant key passes out.1.2) as (_ & _ & _ & _ & Hcount & _).
    destruct (Hcount token_mint) as (Hzero & _). auto.
  - now apply loop_skips_processed.
Qed.

Lemma failed_callback_is_not_retried_witness :
  (let out :=
     _evaluate_early_token no_key (plain offline)
       (coordinator_with (Some failing) (fed 10350)) "MINT" scenario_a in
   out.1.1 = Return tt
   /\ out.2 = [Evaluating "MINT"; CurveLookup "MINT" [LiveTier];
               InRange "MINT"
                 (completion_percent (live_snapshot (trade 10350 990)));
               Scored (_calculate_early_conviction "MINT" scenario_a
                         (live_snapshot (trade 10350 990)));
               UltraEarly "MINT"
                 (_calculate_early_conviction "MINT" scenario_a
                    (live_snapshot (trade 10350 990)));
               Callback (alert_of "MINT" scenario_a
                           (live_snapshot (trade 10350 990)))]
              ++ [EvaluationError (Exception "TelegramError")])
  /\
  (let out :=
     _evaluate_early_token no_key (unformattable offline)
       (coordinator_with (Some failing) (fed 10350)) "MINT" scenario_a in
   (out.1.1 = Raise (Exception "KeyError")
    /\ out.2 = [Evaluating "MINT"; CurveLookup "MINT" [LiveTier];
                InRange "MINT"
                  (completion_percent (live_snapshot (trade 10350 990)));
                Scored (_calculate_early_conviction "MINT" scenario_a
                          (live_snapshot (trade 10350 990)));
                UltraEarly "MINT"
                  (_calculate_early_conviction "MINT" scenario_a
                     (live_snapshot (trade 10350 990)));
                Callback (alert_of "MINT" scenario_a
                            (live_snapshot (trade 10350 990)))])
   /\ "MINT" ∈ processed_tokens out.1.2
   /\ forall passes,
       alert_count "MINT" (_aggregation_loop no_key passes out.1.2).2 = 0
       /\ Evaluating "MINT" ∉ (_aggregation_loop no_key passes out.1.2).2).
Proof.
  split.
  - destruct (failed_callback_is_not_retried no_key (plain offline)
                (coordinator_with (Some failing) (fed 10350)) "MINT" scenario_a
                (live_snapshot (trade 10350 990)) (fed 10350) [LiveTier] failing
                (Exception "TelegramError")) as (Hlogged & _).
    + vm_compute. reflexivity.
    + vm_compute. reflexivity.
    + vm_compute. discriminate.
    + reflexivity.
    + reflexivity.
    + apply Hlogged. reflexivity.
  - destruct (failed_callback_is_not_retried no_key (unformattable offline)
                (coordinator_with (Some failing) (fed 10350)) "MINT" scenario_a
                (live_snapshot (trade 10350 990)) (fed 10350) [LiveTier] failing
                (Exception "TelegramError")) as (_ & Hescaped & _ & Hin & Hlater).
    + vm_compute. reflexivity.
    + vm_compute. reflexivity.
    + vm_compute. discriminate.
    + reflexivity.
    + reflexivity.
    + split; [apply Hescaped; reflexivity|]. split; [exact Hin|exact Hlater].
Defined.

(** X17.  When no callback is registered, a token that scores at least 85
    is still put in the processed set, and nothing is called.  Registering
    a callback afterwards does not bring the alert back: no later iteration
    calls it for that token. *)
Theorem alert_without_callback_is_lost
    key w self token_mint bundle snapshot monitor' tiers :
  get_curve_progress key (curve_env w) (bonding_monitor self) token_mint
    = (Return (Some snapshot), monitor', tiers) ->
  (70 <? completion_percent snapshot)%float = false ->
  (85 <= _calculate_early_conviction token_mint bundle snapshot)%Z ->
  signal_callback self = None ->
  let out := _evaluate_early_token key w self token_mint bundle in
  alert_count token_mint out.2 = 0
  /\ token_mint ∈ processed_tokens out.1.2
  /\ forall callback passes,
      alert_count token_mint
        (_aggregation_loop key passes (set_signal_callback out.1.2 callback)).2
      = 0.
Proof.
  intros Hget Hlate Hscore Hcb out.
  assert (out = (Return tt,
                 mark_processed (with_monitor self monitor') token_mint,
                 [Evaluating token_mint; CurveLookup token_mint tiers;
                  InRange token_mint (completion_percent snapshot);
                  Scored (_calculate_early_conviction token_mint bundle snapshot);
                  UltraEarly token_mint
                    (_calculate_early_conviction token_mint bundle snapshot)]))
    as ->.
  { subst out. unfold _evaluate_early_token. rewrite Hget.
    cbv beta iota zeta. rewrite Hlate.
    change 85%Z with MIN_EARLY_CONVICTION in Hscore.
    apply Z.leb_le in Hscore. rewrite Hscore.
    cbn [signal_callback mark_processed]. rewrite Hcb.
    unfold with_monitor. now rewrite Hcb. }
  cbn [fst snd]. split; [reflexivity|].
  assert (token_mint
            ∈ processed_tokens
                (mark_processed (with_monitor self monitor') token_mint)) as Hin
    by (apply elem_of_union_l; now apply elem_of_singleton).
  split; [exact Hin|]. intros callback passes.
  destruct (loop_invariant key passes
              (set_signal_callback
                 (mark_processed (with_monitor self monitor') token_mint)
                 callback))
    as (_ & _ & _ & _ & Hcount & _).
  destruct (Hcount token_mint) as (Hzero & _). now apply Hzero.
Qed.

Lemma alert_without_callback_is_lost_witness :
  let out :=
    _evaluate_early_token no_key (plain offline)
      (coordinator_with None (fed 10350)) "MINT" scenario_a in
  alert_count "MINT" out.2 = 0
  /\ "MINT" ∈ processed_tokens out.1.2
  /\ forall callback passes,
      alert_count "MINT"
        (_aggregation_loop no_key passes (set_signal_callback out.1.2 callback)).2
      = 0.
Proof.
  apply (alert_without_callback_is_lost no_key (plain offline)
           (coordinator_with None (fed 10350)) "MINT" scenario_a
           (live_snapshot (trade 10350 990)) (fed 10350) [LiveTier]).
  - vm_compute. reflexivity.
  - vm_compute. reflexivity.
  - vm_compute. discriminate.
  - reflexivity.
Defined.



(** A pass cut short: the callback fails for MINT with a text the logger
    cannot format, so OTHER, which alone would be alerted, is not looked at
    in this iteration; the loop logs the logger's exception and goes on. *)
Example raising_callback_ends_the_pass :
  alert_count "OTHER"
    (_evaluate_early_token no_key (unformattable offline)
       (feed (pass_trades mint_first) (coordinator_with (Some failing) unfed))
       "OTHER" scenario_a).2 = 1
  /\ (_aggregation_loop no_key [mint_first]
        (coordinator_with (Some failing) unfed)).2
     = [Evaluating "MINT"; CurveLookup "MINT" [LiveTier]; InRange "MINT" 15;
        Scored 125; UltraEarly "MINT" 125; Callback alert_a;
        LoopError (Exception "KeyError")].
Proof. split; vm_compute; reflexivity. Qed.

End CoordinatorExtras.

(** ** The order of binary64 numbers *)

Module FloatOrder.
Import FloatFacts.

Local Open Scope Z_scope.

Ltac order_cases :=
  repeat match goal with
         | H : context [Z.compare ?a ?b] |- _ =>
             destruct (Z.compare_spec a b)
         | H : context [Pos.compare_cont Eq ?a ?b] |- _ =>
             change (Pos.compare_cont Eq a b) with (Pos.compare a b) in *;
             destruct (Pos.compare_spec a b)
         | |- context [Z.compare ?a ?b] =>
             destruct (Z.compare_spec a b)
         | |- context [Pos.compare_cont Eq ?a ?b] =>
             change (Pos.compare_cont Eq a b) with (Pos.compare a b) in *;
             destruct (Pos.compare_spec a b)
         end.

Lemma SFleb_ltb_trans x y z :
  SFleb x y = true -> SFltb y z = true -> SFltb x z = true.
Proof.
  unfold SFleb, SFltb.
  destruct x as [sx|sx| |sx mx ex], y as [sy|sy| |sy my ey],
    z as [sz|sz| |sz mz ez]; simpl; try discriminate;
    try (destruct sx); try (destruct sy); try (destruct sz); simpl;
    try discriminate; try reflexivity;
    intros H1 H2; order_cases; simpl in *;
    try discriminate; try reflexivity; subst; try lia.
Qed.

Lemma SFltb_leb_trans x y z :
  SFltb x y = true -> SFleb y z = true -> SFltb x z = true.
Proof.
  unfold SFleb, SFltb.
  destruct x as [sx|sx| |sx mx ex], y as [sy|sy| |sy my ey],
    z as [sz|sz| |sz mz ez]; simpl; try discriminate;
    try (destruct sx); try (destruct sy); try (destruct sz); simpl;
    try discriminate; try reflexivity;
    intros H1 H2; order_cases; simpl in *;
    try discriminate; try reflexivity; subst; try lia.
Qed.

(** [x <= y < z] gives [x < z], and [x < y <= z] too. *)
Lemma leb_ltb_trans x y z :
  (x <=? y)%float = true -> (y <? z)%float = true -> (x <? z)%float = true.
Proof.
  rewrite FloatAxioms.leb_spec, !FloatAxioms.ltb_spec. apply SFleb_ltb_trans.
Qed.

Lemma ltb_leb_trans x y z :
  (x <? y)%float = true -> (y <=? z)%float = true -> (x <? z)%float = true.
Proof.
  rewrite FloatAxioms.leb_spec, !FloatAxioms.ltb_spec. apply SFltb_leb_trans.
Qed.

End FloatOrder.

(** ** The scorer: every factor is monotone *)

Module ScorerMore.
Import PumpBondingMonitor EarlySignalsMonitor Facts Runs.
Import FloatFacts ScorerFacts FloatOrder.

Local Open Scope Z_scope.

Ltac tier_cases :=
  repeat match goal with
         | |- context [(?a <=? ?b)] => destruct (Z.leb_spec a b)
         | |- context [(?a <? ?b)] => destruct (Z.ltb_spec a b)
         end.

Lemma kol_points_mono n m : n <= m -> kol_points n <= kol_points m.
Proof. unfold kol_points. intros H. tier_cases; lia. Qed.

Lemma social_points_mono n m : n <= m -> social_points n <= social_points m.
Proof. unfold social_points. intros H. tier_cases; lia. Qed.

Lemma convergence_points_mono n m :
  n <= m -> convergence_points n <= convergence_points m.
Proof. unfold convergence_points. intros H. tier_cases; lia. Qed.

Lemma holder_points_mono n m : n <= m -> holder_points n <= holder_points m.
Proof. unfold holder_points. intros H. tier_cases; lia. Qed.

(** Earlier on the curve is never worth less. *)
Lemma curve_points_antitone c1 c2 :
  (c2 <=? c1)%float = true -> curve_points c1 <= curve_points c2.
Proof.
  intros H. unfold curve_points.
  destruct (c1 <? 20)%float eqn:H20.
  { now rewrite (leb_ltb_trans c2 c1 20 H H20). }
  destruct (c1 <? 40)%float eqn:H40.
  { rewrite (leb_ltb_trans c2 c1 40 H H40). destruct (c2 <? 20)%float; lia. }
  destruct (c1 <? 60)%float eqn:H60.
  { rewrite (leb_ltb_trans c2 c1 60 H H60).
    destruct (c2 <? 20)%float, (c2 <? 40)%float; lia. }
  destruct (c2 <? 20)%float, (c2 <? 40)%float, (c2 <? 60)%float; lia.
Qed.

Lemma volume_points_mono v1 v2 :
  (v1 <=? v2)%float = true -> volume_points v1 <= volume_points v2.
Proof.
  intros H. unfold volume_points.
  destruct (10000 <? v1)%float eqn:Hv.
  { now rewrite (ltb_leb_trans 10000 v1 v2 Hv H). }
  destruct (10000 <? v2)%float; lia.
Qed.

(** Every factor is worth a multiple of 5 points. *)
Lemma curve_points_fives c : exists k, curve_points c = 5 * k.
Proof.
  unfold curve_points. repeat case_match;
    [exists 8|exists 6|exists 4|exists 2]; reflexivity.
Qed.

Lemma smart_money_points_fives n : exists k, smart_money_points n = 5 * k.
Proof.
  unfold smart_money_points. repeat case_match;
    [exists 10|exists 8|exists 6|exists 0]; reflexivity.
Qed.

Lemma kol_points_fives n : exists k, kol_points n = 5 * k.
Proof.
  unfold kol_points. repeat case_match; [exists 7|exists 5|exists 0]; reflexivity.
Qed.

Lemma social_points_fives n : exists k, social_points n = 5 * k.
Proof.
  unfold social_points. repeat case_match;
    [exists 6|exists 4|exists 2|exists 0]; reflexivity.
Qed.

Lemma convergence_points_fives n : exists k, convergence_points n = 5 * k.
Proof.
  unfold convergence_points. repeat case_match;
    [exists 5|exists 3|exists 0]; reflexivity.
Qed.

Lemma volume_points_fives v : exists k, volume_points v = 5 * k.
Proof. unfold volume_points. case_match; [exists 3|exists 0]; reflexivity. Qed.

Lemma holder_points_fives n : exists k, holder_points n = 5 * k.
Proof.
  unfold holder_points. repeat case_match; [exists 2|exists 1|exists 0]; reflexivity.
Qed.

End ScorerMore.

(** ** Further properties of the scorer *)

Module ScorerExtras.
Import PumpBondingMonitor EarlySignalsMonitor Facts Samples Runs MoreSamples.
Import FloatFacts ScorerFacts FloatOrder ScorerMore.

Local Open Scope Z_scope.

(** X19.  More signals never lower the score: on the same snapshot, a
    bundle with at least as many smart-money events, KOL calls and social
    calls and at least the same [signal_count] scores at least as much.
    The score reads the counts only, not the token and not the payloads. *)
Theorem score_monotone_in_signals token1 token2 b1 b2 snapshot :
  bundle_le b1 b2 ->
  _calculate_early_conviction token1 b1 snapshot
  <= _calculate_early_conviction token2 b2 snapshot.
Proof.
  intros (Hsm & Hkol & Hsocial & Hcount).
  rewrite !score_factors. unfold signal_points.
  pose proof (smart_money_points_mono _ _ Hsm).
  pose proof (kol_points_mono _ _ Hkol).
  pose proof (social_points_mono _ _ Hsocial).
  pose proof (convergence_points_mono _ _ Hcount).
  lia.
Qed.

Lemma score_monotone_in_signals_witness :
  _calculate_early_conviction "MINT" scenario_a_less later_snapshot
  <= _calculate_early_conviction "OTHER" scenario_a later_snapshot.
Proof.
  apply (score_monotone_in_signals "MINT" "OTHER" scenario_a_less scenario_a
           later_snapshot).
  unfold bundle_le. vm_compute. repeat split; discriminate.
Defined.

(** X20.  Earlier is never worse: for the same bundle, a snapshot with a
    completion that is not higher, a volume that is not lower and a holder
    count that is not lower scores at least as much. *)
Theorem earlier_snapshot_never_scores_lower token_mint bundle s1 s2 :
  snapshot_le s1 s2 ->
  _calculate_early_conviction token_mint bundle s1
  <= _calculate_early_conviction token_mint bundle s2.
Proof.
  intros (Hcurve & Hvolume & Hholders).
  rewrite !score_factors. unfold signal_points.
  pose proof (curve_points_antitone _ _ Hcurve).
  pose proof (volume_points_mono _ _ Hvolume).
  pose proof (holder_points_mono _ _ Hholders).
  lia.
Qed.

Lemma earlier_snapshot_never_scores_lower_witness :
  _calculate_early_conviction "MINT" scenario_a later_snapshot
  <= _calculate_early_conviction "MINT" scenario_a busy_snapshot.
Proof.
  apply (earlier_snapshot_never_scores_lower "MINT" scenario_a later_snapshot
           busy_snapshot).
  unfold snapshot_le. simpl. repeat split; [vm_compute; reflexivity ..|lia].
Defined.

(** X21.  Every score is a multiple of 5: each tier of each factor is. *)
Theorem score_is_multiple_of_five token_mint bundle snapshot :
  exists k, _calculate_early_conviction token_mint bundle snapshot = 5 * k.
Proof.
  rewrite score_factors. unfold signal_points.
  destruct (curve_points_fives (completion_percent snapshot)) as [k1 ->].
  destruct (smart_money_points_fives (len_get (smart_money bundle))) as [k2 ->].
  destruct (kol_points_fives (len_get (kols bundle))) as [k3 ->].
  destruct (social_points_fives
              (len_get (telegram bundle) + len_get (twitter bundle)))
    as [k4 ->].
  destruct (convergence_points_fives (signal_count bundle)) as [k5 ->].
  destruct (volume_points_fives (default 0%float (volume_24h snapshot)))
    as [k6 ->].
  destruct (holder_points_fives (default 0 (holder_count snapshot))) as [k7 ->].
  exists (k1 + k2 + k3 + k4 + k5 + k6 + k7). lia.
Qed.

End ScorerExtras.

(** ** Before [start] and after [stop] *)

Module LifecycleFacts.
Import PumpBondingMonitor EarlySignalsMonitor Facts Runs.
Import ResolverFacts CoordinatorFacts.

Section WithKey.
Variable HELIUS_API_KEY : string.

(** Without a session the request raises before it is sent. *)
Lemma api_without_session w self token_mint :
  session self = None -> _get_from_pumpfun_api w self token_mint = Return None.
Proof. intros H. apply api_failure_absent. now apply no_session. Qed.

Lemma unstarted_lookup w self token_mint :
  unstarted self ->
  get_curve_progress HELIUS_API_KEY w (bonding_monitor self) token_mint
  = (Return None, bonding_monitor self,
     [LiveTier; CacheTier; PumpfunApiTier; HeliusTier]).
Proof.
  intros (Hs & Hl & Hc). unfold get_curve_progress, get_curve_progress_try.
  rewrite Hl, Hc, !lookup_empty, (api_without_session w _ token_mint Hs),
    _get_from_helius_fallback_absent.
  reflexivity.
Qed.

Lemma unstarted_evaluate w self token_mint bundle :
  unstarted self ->
  _evaluate_early_token HELIUS_API_KEY w self token_mint bundle
  = (Return tt, self,
     [Evaluating token_mint;
      CurveLookup token_mint
        [LiveTier; CacheTier; PumpfunApiTier; HeliusTier];
      NoCurveData token_mint]).
Proof.
  intros H. unfold _evaluate_early_token.
  rewrite (unstarted_lookup (curve_env w) self token_mint H). now destruct self.
Qed.

Lemma unstarted_pass w has_seen hot_tokens self :
  unstarted self ->
  (evaluate_hot_tokens HELIUS_API_KEY w has_seen hot_tokens self).1.2 = self
  /\ (forall a,
        Callback a
          ∉ (evaluate_hot_tokens HELIUS_API_KEY w has_seen hot_tokens self).2)
  /\ (forall token_mint,
        Evaluating token_mint
          ∈ (evaluate_hot_tokens HELIUS_API_KEY w has_seen hot_tokens self).2 ->
        NoCurveData token_mint
          ∈ (evaluate_hot_tokens HELIUS_API_KEY w has_seen hot_tokens self).2).
Proof.
  intros H.
  assert (forall r : result unit,
             (r, self, @nil event).1.2 = self
             /\ (forall a, Callback a ∉ (r, self, @nil event).2)
             /\ (forall token_mint,
                   Evaluating token_mint ∈ (r, self, @nil event).2 ->
                   NoCurveData token_mint ∈ (r, self, @nil event).2)) as Hstop.
  { intros r. simpl. split; [reflexivity|]. split; intros x; [apply not_elem_of_nil|].
    intros Hin. now apply elem_of_nil in Hin. }
  induction hot_tokens as [|[head bundle] rest IH]; simpl;
    [exact (Hstop (Return tt))|].
  case_bool_decide; [exact IH|].
  destruct (has_seen head) as [[]|e]; [exact IH| |exact (Hstop (Raise e))].
  rewrite (unstarted_evaluate (w head) self head bundle H).
  destruct (evaluate_hot_tokens _ w has_seen rest self) as [[r1 self1] log1].
  destruct IH as (Hself & Hquiet & Hlogged). simpl in *.
  split; [exact Hself|]. split.
  - intros a. rewrite !not_elem_of_cons. repeat split; try discriminate.
    apply Hquiet.
  - intros token_mint. rewrite !elem_of_cons.
    intros [Hin|[Hin|[Hin|Hin]]]; try discriminate.
    + injection Hin as ->. auto.
    + auto.
Qed.

Lemma feed_nothing self : feed [] self = self.
Proof. now destruct self. Qed.

End WithKey.
End LifecycleFacts.

Module LifecycleExtras.
Import PumpBondingMonitor EarlySignalsMonitor Facts Samples Runs MoreSamples.
Import ResolverFacts CoordinatorFacts LifecycleFacts.

(** X22.  Without a session no request is sent: a lookup on a monitor that
    was never started leaves the monitor as it is, returns a snapshot only
    from a fresh live entry or a fresh cache entry, and gives the same
    result whatever the network would have answered. *)
Theorem lookup_without_session key w self token_mint :
  session self = None ->
  (get_curve_progress key w self token_mint).1.2 = self
  /\ (forall snapshot,
        (get_curve_progress key w self token_mint).1.1 = Return (Some snapshot) ->
        (exists live,
            live_tokens self !! token_mint = Some live
            /\ (now_live w - ld_last_updated live <? 60)%float = true
            /\ snapshot = live_snapshot live)
        \/ (exists cached,
              token_cache self !! token_mint = Some cached
              /\ (now_cache w - timestamp cached <? cache_ttl self)%float = true
              /\ snapshot = data cached))
  /\ (forall w',
        now_live w' = now_live w -> now_cache w' = now_cache w ->
        get_curve_progress key w' self token_mint
        = get_curve_progress key w self token_mint).
Proof.
  intros Hs.
  pose proof (fun w0 => api_without_session w0 self token_mint Hs) as Hapi.
  split; [|split].
  - destruct (get_curve_progress_outcome key w self token_mint)
      as [live Hl Hage|cached Hm Hc Hage|snapshot Hm Hcm Hsnap|Hm Hcm Hnone];
      try reflexivity.
    rewrite Hapi in Hsnap. discriminate.
  - intros snapshot.
    destruct (get_curve_progress_outcome key w self token_mint)
      as [live Hl Hage|cached Hm Hc Hage|s Hm Hcm Hsnap|Hm Hcm Hnone]; simpl.
    + intros [= <-]. left. eauto.
    + intros [= <-]. right. eauto.
    + rewrite Hapi in Hsnap. discriminate.
    + discriminate.
  - intros w' Hlive Hcache. unfold get_curve_progress, get_curve_progress_try.
    now rewrite Hlive, Hcache, !Hapi.
Qed.

Lemma lookup_without_session_witness :
  (get_curve_progress no_key (online 10350) PumpBondingMonitor.__init__ "MINT").1.2
  = PumpBondingMonitor.__init__
  /\ (forall snapshot,
        (get_curve_progress no_key (online 10350) PumpBondingMonitor.__init__
           "MINT").1.1 = Return (Some snapshot) ->
        (exists live,
            live_tokens PumpBondingMonitor.__init__ !! "MINT" = Some live
            /\ (now_live (online 10350) - ld_last_updated live <? 60)%float = true
            /\ snapshot = live_snapshot live)
        \/ (exists cached,
              token_cache PumpBondingMonitor.__init__ !! "MINT" = Some cached
              /\ (now_cache (online 10350) - timestamp cached
                  <? cache_ttl PumpBondingMonitor.__init__)%float = true
              /\ snapshot = data cached))
  /\ (forall w',
        now_live w' = now_live (online 10350) ->
        now_cache w' = now_cache (online 10350) ->
        get_curve_progress no_key w' PumpBondingMonitor.__init__ "MINT"
        = get_curve_progress no_key (online 10350) PumpBondingMonitor.__init__
            "MINT").
Proof.
  apply (lookup_without_session no_key (online 10350)
           PumpBondingMonitor.__init__ "MINT").
  reflexivity.
Defined.

(** X23.  A coordinator whose bonding monitor was never started and never
    fed stays silent: over iterations that bring no trade, every
    evaluation ends without curve data, the callback is never called,
    and the coordinator, its processed set included, stays as it was,
    whatever is hot and whatever the network would answer. *)
Theorem unstarted_monitor_never_alerts key passes self :
  unstarted self ->
  Forall (fun p => pass_trades p = []) passes ->
  (_aggregation_loop key passes self).1.2 = self
  /\ (forall a, Callback a ∉ (_aggregation_loop key passes self).2)
  /\ (forall token_mint,
        Evaluating token_mint ∈ (_aggregation_loop key passes self).2 ->
        NoCurveData token_mint ∈ (_aggregation_loop key passes self).2).
Proof.
  intros Hcold Hquiet.
  assert (forall r : result unit,
             (r, self, @nil event).1.2 = self
             /\ (forall a, Callback a ∉ (r, self, @nil event).2)
             /\ (forall token_mint,
                   Evaluating token_mint ∈ (r, self, @nil event).2 ->
                   NoCurveData token_mint ∈ (r, self, @nil event).2)) as Hstop.
  { intros r. simpl. split; [reflexivity|]. split; intros x; [apply not_elem_of_nil|].
    intros Hin. now apply elem_of_nil in Hin. }
  induction Hquiet as [|p rest Hp _ IH]; simpl; [exact (Hstop (Return tt))|].
  destruct (EarlySignalsMonitor.running self); [|exact (Hstop (Return tt))].
  rewrite Hp, feed_nothing.
  assert (exists r1 log1,
             match pass_hot_tokens p with
             | Return hot_tokens =>
                 evaluate_hot_tokens key (pass_env p) (pass_has_seen p)
                   hot_tokens self
             | Raise e => (Raise e, self, [])
             end = (r1, self, log1)
             /\ (forall a, Callback a ∉ log1)
             /\ (forall token_mint,
                   Evaluating token_mint ∈ log1 ->
                   NoCurveData token_mint ∈ log1))
    as (r1 & log1 & -> & Hnone & Hlogged).
  { destruct (pass_hot_tokens p) as [hot_tokens|e].
    - destruct (unstarted_pass key (pass_env p) (pass_has_seen p) hot_tokens
                  self Hcold) as (Hself & Hnone & Hlogged).
      destruct (evaluate_hot_tokens key _ _ hot_tokens self)
        as [[r1 self1] log1].
      simpl in Hself. subst self1. eauto.
    - destruct (Hstop (Raise e)) as (_ & Hnone & Hlogged). eauto. }
  destruct (_aggregation_loop key rest self) as [[r2 self2] log2].
  destruct IH as (Hself2 & Hnone2 & Hlogged2). simpl in *.
  destruct r1 as [u|e]; [|destruct (pass_logger_error p e)]; simpl;
    (split; [try exact Hself2; try reflexivity|]); split.
  - intros a. rewrite elem_of_app. intros [Hin|Hin];
      [exact (Hnone a Hin)|exact (Hnone2 a Hin)].
  - intros token_mint. rewrite !elem_of_app. intros [Hin|Hin]; auto.
  - intros a0. rewrite elem_of_app, elem_of_cons.
    intros [Hin|[Hin|Hin]];
      [exact (Hnone a0 Hin)|discriminate|exact (Hnone2 a0 Hin)].
  - intros token_mint. rewrite !elem_of_app, !elem_of_cons.
    intros [Hin|[Hin|Hin]]; [auto|discriminate|auto].
  - exact Hnone.
  - exact Hlogged.
Qed.

Lemma unstarted_monitor_never_alerts_witness :
  (_aggregation_loop no_key [hot_online; still_hot] constructed).1.2 = constructed
  /\ (forall a,
        Callback a ∉ (_aggregation_loop no_key [hot_online; still_hot] constructed).2)
  /\ (forall token_mint,
        Evaluating token_mint
          ∈ (_aggregation_loop no_key [hot_online; still_hot] constructed).2 ->
        NoCurveData token_mint
          ∈ (_aggregation_loop no_key [hot_online; still_hot] constructed).2).
Proof.
  apply (unstarted_monitor_never_alerts no_key [hot_online; still_hot] constructed).
  - repeat split.
  - repeat constructor.
Defined.

(** The run of the witness: both iterations evaluate MINT and find no curve
    data, although the API would answer in the first.  The same iterations
    on a started monitor alert for MINT. *)
Example unstarted_monitor_run :
  (_aggregation_loop no_key [hot_online; still_hot] constructed).2
  = [Evaluating "MINT";
     CurveLookup "MINT" [LiveTier; CacheTier; PumpfunApiTier; HeliusTier];
     NoCurveData "MINT";
     Evaluating "MINT";
     CurveLookup "MINT" [LiveTier; CacheTier; PumpfunApiTier; HeliusTier];
     NoCurveData "MINT"].
Proof. vm_compute. reflexivity. Qed.

Example started_monitor_alerts :
  alert_count "MINT"
    (_aggregation_loop no_key [hot_online; still_hot] (coordinator unfed)).2
  = 1.
Proof. vm_compute. reflexivity. Qed.

(** X24.  [start] and [stop] keep the data, and a lookup does not ask
    whether the monitor is running: a snapshot that the live tier or the
    cache serves is served, from the same tier, on the started and on the
    stopped monitor too. *)
Theorem start_and_stop_keep_the_data key w self token_mint snapshot self' tiers :
  get_curve_progress key w self token_mint
    = (Return (Some snapshot), self', tiers) ->
  PumpfunApiTier ∉ tiers ->
  self' = self
  /\ get_curve_progress key w (stop self) token_mint
     = (Return (Some snapshot), stop self, tiers)
  /\ get_curve_progress key w (start self) token_mint
     = (Return (Some snapshot), start self, tiers).
Proof.
  unfold get_curve_progress, get_curve_progress_try, start, stop. simpl.
  destruct (live_tokens self !! token_mint) as [live|];
    [destruct (now_live w - ld_last_updated live <? 60)%float|];
    try (intros [= <- <- <-] _; repeat split);
    (destruct (token_cache self !! token_mint) as [cached|];
     [destruct (now_cache w - timestamp cached <? cache_ttl self)%float|]);
    try (intros [= <- <- <-] _; repeat split);
    (destruct (_get_from_pumpfun_api w self token_mint) as [[s|]|e]; simpl;
     intros [= <- <- <-] Hno; exfalso; apply Hno;
     apply list_elem_of_further, list_elem_of_further, list_elem_of_here).
Qed.

Lemma start_and_stop_keep_the_data_witness :
  fed 10350 = fed 10350
  /\ get_curve_progress no_key offline (stop (fed 10350)) "MINT"
     = (Return (Some (live_snapshot (trade 10350 990))), stop (fed 10350),
        [LiveTier])
  /\ get_curve_progress no_key offline (start (fed 10350)) "MINT"
     = (Return (Some (live_snapshot (trade 10350 990))), start (fed 10350),
        [LiveTier]).
Proof.
  apply (start_and_stop_keep_the_data no_key offline (fed 10350) "MINT"
           (live_snapshot (trade 10350 990)) (fed 10350) [LiveTier]).
  - vm_compute. reflexivity.
  - rewrite not_elem_of_cons, elem_of_nil. split; [discriminate|tauto].
Defined.

End LifecycleExtras.
